(** * ModernCart storage layer: a shallow embedding of [server/storage.ts]

    The class [DatabaseStorage] issues one SQL statement per [await]
    through the query builder.  The embedding keeps that shape: the
    database is a record of tables (lists of rows, in the order a bare
    [select] returns them), every statement is a function on that record,
    and every method is a computation in a small state monad that threads
    the database through its statements in the order of the [await]s.
    The rows of a join without [order by] come back in an order that the
    database chooses: the methods that join take it as a [JoinOrder], and
    what is proved of them holds for every such order.

    Numbers are mathematical integers, timestamps are integers on the
    database clock's scale, and [numeric] columns are integers counted in
    hundredths.  What the query builder throws while it puts a statement
    together is part of the model.  Errors raised by the database server
    (a lost connection, a violated constraint, a value out of a column's
    range) are not: a method is modelled on the statements the server
    executes. *)

From Stdlib Require Import ZArith NArith List String Ascii Bool Lia.
From Stdlib Require Import Sorting.Sorted Sorting.Permutation.
From Stdlib Require Import DecimalString DecimalPos DecimalN.
Import ListNotations.

Local Open Scope string_scope.
Local Open Scope Z_scope.

(** ** JavaScript truthiness, as far as the storage layer relies on it *)

Module JS.

(** [if (n)] for a number: zero is falsy. *)
Definition truthy_number (n : Z) : bool := negb (n =? 0).

(** [if (s)] for a string: the empty string is falsy. *)
Definition truthy_string (s : string) : bool := negb (String.eqb s "").

(** [if (x) ... else ...] for [x : number | undefined]: the number on
    the branch that is taken when [x] is truthy. *)
Definition when_number (x : option Z) : option Z :=
  match x with
  | Some n => if truthy_number n then Some n else None
  | None => None
  end.

(** [if (x) ... else ...] for [x : string | undefined]. *)
Definition when_string (x : option string) : option string :=
  match x with
  | Some s => if truthy_string s then Some s else None
  | None => None
  end.

(** [x || d] for [x : number | null | undefined]. *)
Definition or_number (x : option Z) (d : Z) : Z :=
  match x with
  | Some n => if truthy_number n then n else d
  | None => d
  end.

(** A value that is a number or a string at run time, whatever type the
    source declares for it. *)
Inductive value : Type :=
| num (n : Z)
| str (s : string).

(** [x || d] for a string [x] and a number [d]. *)
Definition or_text (x : string) (d : Z) : value :=
  if truthy_string x then str x else num d.

(** [x || d] for [x : string | null]. *)
Definition or_string (x : option string) (d : string) : string :=
  match x with
  | Some s => if truthy_string s then s else d
  | None => d
  end.

(** [row || undefined]: a row object is always truthy. *)
Definition or_undefined {A : Type} (x : option A) : option A :=
  match x with
  | Some r => Some r
  | None => None
  end.

(** A parameter with a default value: [f(x = d)]. *)
Definition default {A : Type} (x : option A) (d : A) : A :=
  match x with
  | Some v => v
  | None => d
  end.

(** [const [x] = rows]: the first element, [undefined] on an empty array. *)
Definition first {A : Type} (rows : list A) : option A :=
  match rows with
  | r :: _ => Some r
  | [] => None
  end.

End JS.

(** ** Rows of the six tables

    [@shared/schema], which declares the tables and the row types, is not
    among the sources.  The columns below are those of the spec's data
    model, under the names the storage layer and the client use. *)

(** Modelled from the spec: the [User] row of [@shared/schema]. *)
Module User.
Record t := mk {
  id : Z;
  username : string;
  email : string;
  password : string;
  role : string
}.
End User.

(** Modelled from the spec: the [Category] row of [@shared/schema]. *)
Module Category.
Record t := mk {
  id : Z;
  name : string;
  slug : string
}.
End Category.

(** Modelled from the spec: the [Product] row of [@shared/schema]; [price],
    [originalPrice] and [rating] are [numeric] columns. *)
Module Product.
Record t := mk {
  id : Z;
  name : string;
  slug : string;
  description : string;
  price : Z;
  originalPrice : option Z;
  imageUrl : string;
  categoryId : option Z;
  stock : Z;
  isFeatured : bool;
  isActive : bool;
  rating : Z;
  reviewCount : Z;
  createdAt : Z
}.
End Product.

(** Modelled from the spec: the [CartItem] row of [@shared/schema]; the
    storage layer reads [quantity] as nullable ([existingItem.quantity || 0]). *)
Module CartItem.
Record t := mk {
  id : Z;
  userId : Z;
  productId : Z;
  quantity : option Z
}.
End CartItem.

(** Modelled from the spec: the [Order] row of [@shared/schema]; [total] is
    a [numeric] column. *)
Module Order.
Record t := mk {
  id : Z;
  userId : Z;
  total : Z;
  status : string;
  shippingAddress : string;
  paymentMethod : string;
  createdAt : Z
}.
End Order.

(** Modelled from the spec: the [OrderItem] row of [@shared/schema]; [price]
    is the price at purchase. *)
Module OrderItem.
Record t := mk {
  id : Z;
  orderId : Z;
  productId : Z;
  quantity : Z;
  price : Z
}.
End OrderItem.

(** Modelled from the spec: [InsertCartItem] of [@shared/schema]; the
    quantity may be left out. *)
Module InsertCartItem.
Record t := mk {
  userId : Z;
  productId : Z;
  quantity : option Z
}.
End InsertCartItem.

(** Modelled from the spec: [InsertOrderItem] of [@shared/schema]. *)
Module InsertOrderItem.
Record t := mk {
  orderId : Z;
  productId : Z;
  quantity : Z;
  price : Z
}.
End InsertOrderItem.

(** Modelled from the spec: [Partial<InsertProduct>], with [InsertProduct]
    of [@shared/schema].  [None] is a key that is not supplied.  The two
    nullable columns can be supplied as [null], hence the nested option. *)
Module PartialProduct.
Record t := mk {
  name : option string;
  slug : option string;
  description : option string;
  price : option Z;
  originalPrice : option (option Z);
  imageUrl : option string;
  categoryId : option (option Z);
  stock : option Z;
  isFeatured : option bool;
  isActive : option bool;
  rating : option Z;
  reviewCount : option Z
}.

Definition empty : t :=
  mk None None None None None None None None None None None None.

(** No key is supplied. *)
Definition is_empty (p : t) : bool :=
  match p with
  | mk None None None None None None None None None None None None => true
  | _ => false
  end.
End PartialProduct.

(** Modelled from the spec: [Partial<InsertCategory>], with [InsertCategory]
    of [@shared/schema]; [None] is a key that is not supplied. *)
Module PartialCategory.
Record t := mk {
  name : option string;
  slug : option string
}.

Definition empty : t := mk None None.

(** No key is supplied. *)
Definition is_empty (p : t) : bool :=
  match p with
  | mk None None => true
  | _ => false
  end.
End PartialCategory.

(** ** The database *)

Record Db := mkDb {
  users : list User.t;
  categories : list Category.t;
  products : list Product.t;
  cartItems : list CartItem.t;
  orders : list Order.t;
  orderItems : list OrderItem.t;
  cartItems_id_seq : Z;
  orderItems_id_seq : Z
}.

Definition with_products (ps : list Product.t) (db : Db) : Db :=
  mkDb (users db) (categories db) ps (cartItems db) (orders db)
       (orderItems db) (cartItems_id_seq db) (orderItems_id_seq db).

Definition with_cartItems (cs : list CartItem.t) (seq : Z) (db : Db) : Db :=
  mkDb (users db) (categories db) (products db) cs (orders db)
       (orderItems db) seq (orderItems_id_seq db).

Definition with_orders (os : list Order.t) (db : Db) : Db :=
  mkDb (users db) (categories db) (products db) (cartItems db) os
       (orderItems db) (cartItems_id_seq db) (orderItems_id_seq db).

Definition with_orderItems (ois : list OrderItem.t) (seq : Z) (db : Db) : Db :=
  mkDb (users db) (categories db) (products db) (cartItems db) (orders db)
       ois (cartItems_id_seq db) seq.

Definition with_categories (cs : list Category.t) (db : Db) : Db :=
  mkDb (users db) cs (products db) (cartItems db) (orders db)
       (orderItems db) (cartItems_id_seq db) (orderItems_id_seq db).

(** Modelled from the spec: the column default of [cart_items.quantity],
    declared in [@shared/schema], which is not among the sources; the spec
    gives the cart quantity the default 1. *)
Definition cartItems_quantity_default : option Z := Some 1.

(** ** The state monad of awaited statements *)

Definition Query (A : Type) : Type := Db -> A * Db.

Definition ret {A : Type} (a : A) : Query A := fun db => (a, db).

Definition bind {A B : Type} (q : Query A) (k : A -> Query B) : Query B :=
  fun db => let (a, db') := q db in k a db'.

Notation "x <- q ;; k" := (bind q (fun x => k))
  (at level 61, q at next level, right associativity).

Definition result {A : Type} (q : Query A) (db : Db) : A := fst (q db).
Definition after {A : Type} (q : Query A) (db : Db) : Db := snd (q db).

Fixpoint mapM {A B : Type} (f : A -> Query B) (l : list A) : Query (list B) :=
  match l with
  | [] => ret []
  | a :: l' => b <- f a ;; bs <- mapM f l' ;; ret (b :: bs)
  end.

(** ** SQL statements on one table *)

Module Sql.

Section Table.
Context {A : Type}.

(** [select ... where cond] *)
Definition where_ (cond : A -> bool) (rows : list A) : list A :=
  filter cond rows.

(** [update ... set f where cond]: the table afterwards. *)
Definition update (cond : A -> bool) (f : A -> A) (rows : list A) : list A :=
  map (fun r => if cond r then f r else r) rows.

(** [returning()] of that update: the rows it has written. *)
Definition returning (cond : A -> bool) (f : A -> A) (rows : list A) : list A :=
  map f (filter cond rows).

(** [limit l offset o]: the database skips [o] rows of the ordered
    result and then returns at most [l], whichever clause the builder
    received first. *)
Definition limit_offset (l o : nat) (rows : list A) : list A :=
  firstn l (skipn o rows).

(** [limit l] alone *)
Definition limit (l : nat) (rows : list A) : list A := firstn l rows.

(** [count( * )] *)
Definition count (rows : list A) : Z := Z.of_nat (List.length rows).

(** [order by key desc]: each row goes before the first row with a
    smaller or equal key.  Rows with equal keys keep their table
    order; SQL leaves the order of such rows open. *)
Fixpoint insert_desc (key : A -> Z) (r : A) (sorted : list A) : list A :=
  match sorted with
  | [] => [r]
  | s :: rest =>
      if key s <=? key r then r :: s :: rest
      else s :: insert_desc key r rest
  end.

Fixpoint orderBy_desc (key : A -> Z) (rows : list A) : list A :=
  match rows with
  | [] => []
  | r :: rest => insert_desc key r (orderBy_desc key rest)
  end.

(** [delete ... where cond]: the table afterwards. *)
Definition delete (cond : A -> bool) (rows : list A) : list A :=
  filter (fun r => negb (cond r)) rows.

(** [order by column asc] for an order [le] on rows: each row goes before
    the first row it is not above, so rows that [le] does not tell apart
    keep their table order. *)
Fixpoint insert_asc (le : A -> A -> bool) (r : A) (sorted : list A) : list A :=
  match sorted with
  | [] => [r]
  | s :: rest =>
      if le r s then r :: s :: rest
      else s :: insert_asc le r rest
  end.

Fixpoint orderBy_asc (le : A -> A -> bool) (rows : list A) : list A :=
  match rows with
  | [] => []
  | r :: rest => insert_asc le r (orderBy_asc le rest)
  end.
End Table.

(** [sum(col)]: SQL [NULL] over no rows. *)
Definition sum {A : Type} (col : A -> Z) (rows : list A) : option Z :=
  match rows with
  | [] => None
  | _ => Some (fold_right (fun r acc => col r + acc) 0 rows)
  end.

(** [a left join b on ...]: every row of [a], paired with each matching
    row of [b], or once with [null] when none matches.  This is the
    content of the join, listed by left row; the order in which the
    database returns the rows is a [JoinOrder], below. *)
Definition leftJoin {A B : Type} (on : A -> B -> bool)
    (a : list A) (b : list B) : list (A * option B) :=
  flat_map (fun x =>
    match filter (on x) b with
    | [] => [(x, None)]
    | ys => map (fun y => (x, Some y)) ys
    end) a.

End Sql.

(** ** [numeric] values and the strings the driver returns for them *)

Module Decimal.

(** A [numeric] value of scale 2 is kept as its count of hundredths. *)
Definition digits (n : N) : string := NilEmpty.string_of_uint (N.to_uint n).

Definition two_digits (n : N) : string :=
  if (n <? 10)%N then "0" ++ digits n else digits n.

(** The text of a value: sign, integer part, point, two decimals. *)
Definition to_string (d : Z) : string :=
  let a := Z.to_N (Z.abs d) in
  (if d <? 0 then "-" else "")
    ++ digits (a / 100) ++ "." ++ two_digits (a mod 100).

(** Reading a decimal string back: an optional sign, an integer part,
    and at most two decimals after a point. *)
Fixpoint split_point (s : string) : string * option string :=
  match s with
  | EmptyString => ("", None)
  | String c s' =>
      if Ascii.eqb c "." then ("", Some s')
      else let (i, f) := split_point s' in (String c i, f)
  end.

Definition number (s : string) : option N :=
  match s with
  | EmptyString => None
  | _ => option_map N.of_uint (NilEmpty.uint_of_string s)
  end.

Definition magnitude (s : string) : option N :=
  match split_point s with
  | (i, None) => option_map (fun a => a * 100)%N (number i)
  | (i, Some f) =>
      match number i, number f, String.length f with
      | Some a, Some b, 1%nat => Some (a * 100 + b * 10)%N
      | Some a, Some b, 2%nat => Some (a * 100 + b)%N
      | _, _, _ => None
      end
  end.

Definition of_string (s : string) : option Z :=
  match s with
  | String "-" s' => option_map (fun a => - Z.of_N a) (magnitude s')
  | _ => option_map Z.of_N (magnitude s)
  end.

End Decimal.

(** [count( * )] is an [int8], and the driver hands an [int8] to the code
    as its decimal text, whatever type the query builder is told. *)
Definition int8_text (n : Z) : string :=
  ((if (n <? 0)%Z then "-" else "") ++ Decimal.digits (Z.to_N (Z.abs n)))%string.

(** ** Results that carry joined rows *)

Module OrderItemWithProduct.
(** [{...row.order_items, product: row.products!}]; the assertion [!]
    is erased at run time, so the product can be [null]. *)
Record t := mk {
  item : OrderItem.t;
  product : option Product.t
}.
End OrderItemWithProduct.

Module OrderWithItems.
(** [{...order, orderItems: items}] *)
Record t := mk {
  order : Order.t;
  orderItems : list OrderItemWithProduct.t
}.
End OrderWithItems.

Module CartItemWithProduct.
(** [{...row.cart_items, product: row.products!}]; the assertion [!] is
    erased at run time, so the product can be [null]. *)
Record t := mk {
  line : CartItem.t;
  product : option Product.t
}.
End CartItemWithProduct.

Module Stats.
(** The source declares the three counts as [number]; at run time each is
    what [count || 0] evaluates to. *)
Record t := mk {
  totalOrders : JS.value;
  totalRevenue : string;
  totalProducts : JS.value;
  totalCustomers : JS.value
}.
End Stats.

(** ** Statements on the database *)

(** [db.select().from(table).where(cond)] *)
Definition select_where {A : Type} (table : Db -> list A) (cond : A -> bool)
  : Query (list A) :=
  fun db => (Sql.where_ cond (table db), db).

(** [db.select().from(table)] with a computation on all its rows *)
Definition select_all {A B : Type} (table : Db -> list A) (f : list A -> B)
  : Query B :=
  fun db => (f (table db), db).

(** [db.update(products).set(f).where(cond).returning()] *)
Definition update_products (cond : Product.t -> bool)
    (f : Product.t -> Product.t) : Query (list Product.t) :=
  fun db => (Sql.returning cond f (products db),
             with_products (Sql.update cond f (products db)) db).

(** [db.update(cartItems).set(f).where(cond).returning()] *)
Definition update_cartItems (cond : CartItem.t -> bool)
    (f : CartItem.t -> CartItem.t) : Query (list CartItem.t) :=
  fun db => (Sql.returning cond f (cartItems db),
             with_cartItems (Sql.update cond f (cartItems db))
                            (cartItems_id_seq db) db).

(** [db.update(orders).set(f).where(cond).returning()] *)
Definition update_orders (cond : Order.t -> bool)
    (f : Order.t -> Order.t) : Query (list Order.t) :=
  fun db => (Sql.returning cond f (orders db),
             with_orders (Sql.update cond f (orders db)) db).

(** [db.insert(cartItems).values(v).returning()]: the id comes from the
    table's sequence, a quantity left out takes the column default. *)
Definition insert_cartItems (v : InsertCartItem.t) : Query (list CartItem.t) :=
  fun db =>
    let row := CartItem.mk (cartItems_id_seq db)
                 (InsertCartItem.userId v) (InsertCartItem.productId v)
                 (match InsertCartItem.quantity v with
                  | Some q => Some q
                  | None => cartItems_quantity_default
                  end) in
    ([row], with_cartItems (cartItems db ++ [row])%list (cartItems_id_seq db + 1) db).

(** [db.insert(orderItems).values(v).returning()] *)
Definition insert_orderItems (v : InsertOrderItem.t) : Query (list OrderItem.t) :=
  fun db =>
    let row := OrderItem.mk (orderItems_id_seq db)
                 (InsertOrderItem.orderId v) (InsertOrderItem.productId v)
                 (InsertOrderItem.quantity v) (InsertOrderItem.price v) in
    ([row], with_orderItems (orderItems db ++ [row])%list (orderItems_id_seq db + 1) db).

(** A key of [.set({...})]: written when supplied, kept otherwise. *)
Definition supplied {A : Type} (v : option A) (old : A) : A :=
  match v with
  | Some x => x
  | None => old
  end.

(** What the query builder throws while a statement is put together. *)
Inductive BuilderError : Type :=
| No_values_to_set.

(** The columns that [.set(product)] writes for a [Partial<InsertProduct>]. *)
Definition set_product (p : PartialProduct.t) (r : Product.t) : Product.t :=
  Product.mk (Product.id r)
    (supplied (PartialProduct.name p) (Product.name r))
    (supplied (PartialProduct.slug p) (Product.slug r))
    (supplied (PartialProduct.description p) (Product.description r))
    (supplied (PartialProduct.price p) (Product.price r))
    (supplied (PartialProduct.originalPrice p) (Product.originalPrice r))
    (supplied (PartialProduct.imageUrl p) (Product.imageUrl r))
    (supplied (PartialProduct.categoryId p) (Product.categoryId r))
    (supplied (PartialProduct.stock p) (Product.stock r))
    (supplied (PartialProduct.isFeatured p) (Product.isFeatured r))
    (supplied (PartialProduct.isActive p) (Product.isActive r))
    (supplied (PartialProduct.rating p) (Product.rating r))
    (supplied (PartialProduct.reviewCount p) (Product.reviewCount r))
    (Product.createdAt r).

(** [.set(product)] in the query builder: keys without a value are
    dropped, and with no key left the builder throws ["No values to set"]
    before a statement is sent (SQL has no [update] without an assignment). *)
Definition mapUpdateSet (product : PartialProduct.t)
  : BuilderError + (Product.t -> Product.t) :=
  if PartialProduct.is_empty product
  then inl No_values_to_set
  else inr (set_product product).

(** [.set({ stock: sql`${products.stock} - ${quantity}` })] *)
Definition set_stock_minus (quantity : Z) (r : Product.t) : Product.t :=
  Product.mk (Product.id r) (Product.name r) (Product.slug r)
    (Product.description r) (Product.price r) (Product.originalPrice r)
    (Product.imageUrl r) (Product.categoryId r)
    (Product.stock r - quantity)
    (Product.isFeatured r) (Product.isActive r) (Product.rating r)
    (Product.reviewCount r) (Product.createdAt r).

(** [.set({ quantity: q })] on a cart line *)
Definition set_quantity (q : Z) (r : CartItem.t) : CartItem.t :=
  CartItem.mk (CartItem.id r) (CartItem.userId r) (CartItem.productId r) (Some q).

(** [.set({ status })] on an order *)
Definition set_status (status : string) (r : Order.t) : Order.t :=
  Order.mk (Order.id r) (Order.userId r) (Order.total r) status
    (Order.shippingAddress r) (Order.paymentMethod r) (Order.createdAt r).

(** The order in which the database returns the rows of a join that has
    no [order by]: an arrangement of the rows that the database chooses.
    Nothing is known of it but that it keeps the rows; the same statement
    over the same rows is taken to return them the same way. *)
Record JoinOrder : Type := mkJoinOrder {
  arrange : forall A : Type, list A -> list A;
  arrange_Permutation :
    forall (A : Type) (rows : list A), Permutation (arrange A rows) rows
}.

(** [db.select().from(a).leftJoin(b, on).where(cond)] *)
Definition select_leftJoin_where {A B : Type} (joinOrder : JoinOrder)
    (a : Db -> list A) (b : Db -> list B) (on : A -> B -> bool)
    (cond : A * option B -> bool)
  : Query (list (A * option B)) :=
  fun db => (arrange joinOrder _ (Sql.where_ cond (Sql.leftJoin on (a db) (b db))),
             db).

(** [eq(column, value)] on a nullable column: never true on [null]. *)
Definition eq_nullable (column : option Z) (value : Z) : bool :=
  match column with
  | Some c => c =? value
  | None => false
  end.

(** [db.delete(categories).where(cond)] *)
Definition delete_categories (cond : Category.t -> bool) : Query unit :=
  fun db => (tt, with_categories (Sql.delete cond (categories db)) db).

(** [db.delete(products).where(cond)] *)
Definition delete_products (cond : Product.t -> bool) : Query unit :=
  fun db => (tt, with_products (Sql.delete cond (products db)) db).

(** [db.delete(cartItems).where(cond)] *)
Definition delete_cartItems (cond : CartItem.t -> bool) : Query unit :=
  fun db => (tt, with_cartItems (Sql.delete cond (cartItems db))
                                (cartItems_id_seq db) db).




(** ** The methods of [DatabaseStorage] *)

Module DatabaseStorage.

Definition getUser (id : Z) : Query (option User.t) :=
  rows <- select_where users (fun u => User.id u =? id) ;;
  ret (JS.or_undefined (JS.first rows)).

Definition getUserByUsername (username : string) : Query (option User.t) :=
  rows <- select_where users (fun u => String.eqb (User.username u) username) ;;
  ret (JS.or_undefined (JS.first rows)).

Definition getUserByEmail (email : string) : Query (option User.t) :=
  rows <- select_where users (fun u => String.eqb (User.email u) email) ;;
  ret (JS.or_undefined (JS.first rows)).

Definition getCategoryById (id : Z) : Query (option Category.t) :=
  rows <- select_where categories (fun c => Category.id c =? id) ;;
  ret (JS.or_undefined (JS.first rows)).

Section Listing.

(** The database's [ILIKE] operator, text first, pattern second. *)
Variable ilike : string -> string -> bool.

(** The [conditions] array that [getProducts] builds. *)
Definition getProducts_conditions (categoryId : option Z)
    (search : option string) : list (Product.t -> bool) :=
  let conditions := [fun p => Bool.eqb (Product.isActive p) true] in
  let conditions :=
    match JS.when_number categoryId with
    | Some categoryId =>
        (conditions ++
         [fun p => eq_nullable (Product.categoryId p) categoryId])%list
    | None => conditions
    end in
  let conditions :=
    match JS.when_string search with
    | Some search =>
        (conditions ++
         [fun p => ilike (Product.name p) ("%" ++ search ++ "%")%string])%list
    | None => conditions
    end in
  conditions.

(** [and(...conditions)] *)
Definition and_ {A : Type} (conditions : list (A -> bool)) (r : A) : bool :=
  forallb (fun c => c r) conditions.

Definition getProducts (limit offset : option nat) (categoryId : option Z)
    (search : option string) : Query (list Product.t) :=
  let limit := JS.default limit 20%nat in
  let offset := JS.default offset 0%nat in
  let conditions := getProducts_conditions categoryId search in
  select_all products (fun rows =>
    Sql.limit_offset limit offset
      (Sql.orderBy_desc Product.createdAt
         (Sql.where_ (and_ conditions) rows))).

End Listing.

Definition getProductById (id : Z) : Query (option Product.t) :=
  rows <- select_where products (fun p => Product.id p =? id) ;;
  ret (JS.or_undefined (JS.first rows)).

Definition getProductBySlug (slug : string) : Query (option Product.t) :=
  rows <- select_where products (fun p => String.eqb (Product.slug p) slug) ;;
  ret (JS.or_undefined (JS.first rows)).

Definition getFeaturedProducts (limit : option nat) : Query (list Product.t) :=
  let limit := JS.default limit 8%nat in
  select_all products (fun rows =>
    Sql.limit limit
      (Sql.orderBy_desc Product.createdAt
         (Sql.where_ (fun p => Bool.eqb (Product.isActive p) true
                               && Bool.eqb (Product.isFeatured p) true) rows))).

(** The promise is rejected when [.set(product)] throws. *)
Definition updateProduct (id : Z) (product : PartialProduct.t)
  : Query (BuilderError + option Product.t) :=
  match mapUpdateSet product with
  | inl thrown => ret (inl thrown)
  | inr set =>
      rows <- update_products (fun p => Product.id p =? id) set ;;
      ret (inr (JS.or_undefined (JS.first rows)))
  end.

Definition updateProductStock (id : Z) (quantity : Z) : Query unit :=
  _ <- update_products (fun p => Product.id p =? id) (set_stock_minus quantity) ;;
  ret tt.

Definition addToCart (cartItem : InsertCartItem.t) : Query (option CartItem.t) :=
  (* Check if item already exists in cart *)
  rows <- select_where cartItems (fun c =>
            (CartItem.userId c =? InsertCartItem.userId cartItem)
            && (CartItem.productId c =? InsertCartItem.productId cartItem)) ;;
  match JS.first rows with
  | Some existingItem =>
      (* Update quantity *)
      updated <- update_cartItems
                   (fun c => CartItem.id c =? CartItem.id existingItem)
                   (set_quantity
                      (JS.or_number (CartItem.quantity existingItem) 0
                       + JS.or_number (InsertCartItem.quantity cartItem) 1)) ;;
      ret (JS.first updated)
  | None =>
      (* Create new cart item *)
      inserted <- insert_cartItems cartItem ;;
      ret (JS.first inserted)
  end.

(** The items of one order, each with its product row. *)
Definition order_items_of (joinOrder : JoinOrder) (orderId : Z)
  : Query (list OrderItemWithProduct.t) :=
  rows <- select_leftJoin_where joinOrder orderItems products
            (fun i p => OrderItem.productId i =? Product.id p)
            (fun row => OrderItem.orderId (fst row) =? orderId) ;;
  ret (map (fun row => OrderItemWithProduct.mk (fst row) (snd row)) rows).

Definition getOrders (joinOrder : JoinOrder) (userId : option Z)
    (limit offset : option nat) : Query (list OrderWithItems.t) :=
  let limit := JS.default limit 20%nat in
  let offset := JS.default offset 0%nat in
  orderList <-
    match JS.when_number userId with
    | Some userId =>
        select_all orders (fun rows =>
          Sql.limit_offset limit offset
            (Sql.orderBy_desc Order.createdAt
               (Sql.where_ (fun o => Order.userId o =? userId) rows)))
    | None =>
        select_all orders (fun rows =>
          Sql.limit_offset limit offset
            (Sql.orderBy_desc Order.createdAt rows))
    end ;;
  (* Get order items for each order *)
  mapM (fun order =>
          items <- order_items_of joinOrder (Order.id order) ;;
          ret (OrderWithItems.mk order items))
       orderList.

Definition createOrderItem (orderItem : InsertOrderItem.t)
  : Query (option OrderItem.t) :=
  rows <- insert_orderItems orderItem ;;
  ret (JS.first rows).

Definition updateOrderStatus (id : Z) (status : string) : Query (option Order.t) :=
  rows <- update_orders (fun o => Order.id o =? id) (set_status status) ;;
  ret (JS.or_undefined (JS.first rows)).

(** Each aggregate [select] without grouping yields exactly one row.  The
    counts arrive as text, the sum as text or [null]. *)
Definition getOrderStats : Query Stats.t :=
  orderStats <- select_all orders (fun rows =>
                  (int8_text (Sql.count rows), Sql.sum Order.total rows)) ;;
  productStats <- select_all products (fun rows => int8_text (Sql.count rows)) ;;
  customerStats <- select_all users (fun rows =>
                     int8_text (Sql.count (Sql.where_
                       (fun u => String.eqb (User.role u) "user") rows))) ;;
  ret (Stats.mk
         (JS.or_text (fst orderStats) 0)
         (JS.or_string (option_map Decimal.to_string (snd orderStats)) "0")
         (JS.or_text productStats 0)
         (JS.or_text customerStats 0)).

Section Collation.

(** The order of the database's collation on [text]. *)
Variable collate_le : string -> string -> bool.

Definition getCategories : Query (list Category.t) :=
  select_all categories
    (Sql.orderBy_asc (fun a b => collate_le (Category.name a) (Category.name b))).

End Collation.


Definition deleteCategory (id : Z) : Query unit :=
  delete_categories (fun c => Category.id c =? id).

Definition deleteProduct (id : Z) : Query unit :=
  delete_products (fun p => Product.id p =? id).

Definition getCartItems (joinOrder : JoinOrder) (userId : Z)
  : Query (list CartItemWithProduct.t) :=
  rows <- select_leftJoin_where joinOrder cartItems products
            (fun c p => CartItem.productId c =? Product.id p)
            (fun row => CartItem.userId (fst row) =? userId) ;;
  ret (map (fun row => CartItemWithProduct.mk (fst row) (snd row)) rows).

Definition updateCartItem (id : Z) (quantity : Z) : Query (option CartItem.t) :=
  rows <- update_cartItems (fun c => CartItem.id c =? id) (set_quantity quantity) ;;
  ret (JS.or_undefined (JS.first rows)).

Definition removeFromCart (id : Z) : Query unit :=
  delete_cartItems (fun c => CartItem.id c =? id).

Definition clearCart (userId : Z) : Query unit :=
  delete_cartItems (fun c => CartItem.userId c =? userId).

Definition getOrderById (joinOrder : JoinOrder) (id : Z)
  : Query (option OrderWithItems.t) :=
  rows <- select_where orders (fun o => Order.id o =? id) ;;
  match JS.first rows with
  | None => ret None
  | Some order =>
      items <- order_items_of joinOrder id ;;
      ret (Some (OrderWithItems.mk order items))
  end.

End DatabaseStorage.

(** * The client pages

    The state of a page is the value its [useState] hooks hold; a handler
    is a function on that state. *)

(** ** The product grid of [home-page.tsx] *)

Module HomePage.

Definition ITEMS_PER_PAGE : nat := 8.

Section Grid.
Context {A : Type}.

(** [sortedProducts], the sorted products the grid pages through. *)
Variable sortedProducts : list A.

Definition totalProducts : nat := List.length sortedProducts.

Definition displayedCount (currentPage : nat) : nat :=
  (currentPage + 1) * ITEMS_PER_PAGE.

(** [sortedProducts.slice(0, displayedCount)] *)
Definition displayProducts (currentPage : nat) : list A :=
  firstn (displayedCount currentPage) sortedProducts.

Definition hasMore (currentPage : nat) : bool :=
  (displayedCount currentPage <? totalProducts)%nat.

(** [setCurrentPage(prev => prev + 1)] *)
Definition handleLoadMore (currentPage : nat) : nat := (currentPage + 1)%nat.

End Grid.

End HomePage.

(** ** The quantity selector of [product-page.tsx] *)

Module ProductPage.

(** [useState(1)] *)
Definition initialQuantity : Z := 1.

Inductive Click : Type :=
| Minus
| Plus.

(** A click on one of the two buttons of the selector.  A disabled button
    ([quantity <= 1] for minus, [quantity >= product.stock] for plus) does
    not call its handler. *)
Definition click (stock : Z) (button : Click) (quantity : Z) : Z :=
  match button with
  | Minus =>
      if quantity <=? 1 then quantity
      else Z.max 1 (quantity - 1)
  | Plus =>
      if stock <=? quantity then quantity
      else Z.min stock (quantity + 1)
  end.

Definition clicks (stock : Z) (buttons : list Click) (quantity : Z) : Z :=
  fold_left (fun q button => click stock button q) buttons quantity.

End ProductPage.

(** * Vocabulary of the properties *)

(** The cart lines of one (user, product) pair. *)
Definition cart_lines (u p : Z) (db : Db) : list CartItem.t :=
  Sql.where_ (fun c => (CartItem.userId c =? u) && (CartItem.productId c =? p))
             (cartItems db).

(** What an update of one table leaves alone. *)
Definition same_but_products (db db' : Db) : Prop :=
  users db' = users db /\ categories db' = categories db
  /\ cartItems db' = cartItems db /\ orders db' = orders db
  /\ orderItems db' = orderItems db
  /\ cartItems_id_seq db' = cartItems_id_seq db
  /\ orderItems_id_seq db' = orderItems_id_seq db.

Definition same_but_orders (db db' : Db) : Prop :=
  users db' = users db /\ categories db' = categories db
  /\ products db' = products db /\ cartItems db' = cartItems db
  /\ orderItems db' = orderItems db
  /\ cartItems_id_seq db' = cartItems_id_seq db
  /\ orderItems_id_seq db' = orderItems_id_seq db.

(** Two product rows that differ at most in their stock. *)
Definition same_but_stock (old new : Product.t) : Prop :=
  Product.id new = Product.id old
  /\ Product.name new = Product.name old
  /\ Product.slug new = Product.slug old
  /\ Product.description new = Product.description old
  /\ Product.price new = Product.price old
  /\ Product.originalPrice new = Product.originalPrice old
  /\ Product.imageUrl new = Product.imageUrl old
  /\ Product.categoryId new = Product.categoryId old
  /\ Product.isFeatured new = Product.isFeatured old
  /\ Product.isActive new = Product.isActive old
  /\ Product.rating new = Product.rating old
  /\ Product.reviewCount new = Product.reviewCount old
  /\ Product.createdAt new = Product.createdAt old.



(** Two order rows that differ at most in their status. *)
Definition same_but_status (old new : Order.t) : Prop :=
  Order.id new = Order.id old
  /\ Order.userId new = Order.userId old
  /\ Order.total new = Order.total old
  /\ Order.shippingAddress new = Order.shippingAddress old
  /\ Order.paymentMethod new = Order.paymentMethod old
  /\ Order.createdAt new = Order.createdAt old.

(** A method that looks one row up by a key: [undefined] when no row has
    the key, the row when it is the only one that has it, and the database
    as it was in both cases. *)
Definition lookup_by {A K : Type} (table : Db -> list A) (key : A -> K)
    (get : K -> Query (option A)) : Prop :=
  forall (db : Db) (k : K),
    ((forall r, In r (table db) -> key r <> k) -> get k db = (None, db))
    /\ (forall r, In r (table db) -> key r = k ->
                  (forall r', In r' (table db) -> key r' = k -> r' = r) ->
                  get k db = (Some r, db)).

(** The rows a customer listing can show. *)
Definition active_products (db : Db) : list Product.t :=
  Sql.where_ (fun p => Bool.eqb (Product.isActive p) true) (products db).

(** Newest first: no row is older than a row after it. *)
Definition newest_first {A : Type} (createdAt : A -> Z) (rows : list A) : Prop :=
  StronglySorted (fun a b => createdAt b <= createdAt a) rows.

(** Strictly newest first: every row is newer than every row after it. *)
Definition strictly_newest_first {A : Type} (createdAt : A -> Z)
    (rows : list A) : Prop :=
  StronglySorted (fun a b => createdAt b < createdAt a) rows.

(** A pattern matcher for the examples: [%] stands for any run of
    characters, [_] for any one character, and letters match without
    regard to case. *)
Definition lower (c : ascii) : ascii :=
  let n := nat_of_ascii c in
  if ((65 <=? n) && (n <=? 90))%nat then ascii_of_nat (n + 32) else c.

Fixpoint like (pattern text : list ascii) {struct pattern} : bool :=
  match pattern with
  | [] => match text with [] => true | _ :: _ => false end
  | c :: pattern' =>
      if Ascii.eqb c "%" then
        (fix any (text : list ascii) : bool :=
           like pattern' text
           || match text with [] => false | _ :: text' => any text' end) text
      else if Ascii.eqb c "_" then
        match text with [] => false | _ :: text' => like pattern' text' end
      else
        match text with
        | [] => false
        | d :: text' => Ascii.eqb (lower c) (lower d) && like pattern' text'
        end
  end.

Definition ilike_ascii (text pattern : string) : bool :=
  like (list_ascii_of_string pattern) (list_ascii_of_string text).

(** The sum of all order totals, in hundredths. *)
Definition revenue (db : Db) : Z :=
  fold_right (fun o acc => Order.total o + acc) 0 (orders db).

(** The customers: the users whose role is ["user"]. *)
Definition customers (db : Db) : list User.t :=
  Sql.where_ (fun u => String.eqb (User.role u) "user") (users db).

(** The two decimals of [n] read back as [n] and are two characters. *)
Definition two_digits_ok (n : N) : bool :=
  match Decimal.number (Decimal.two_digits n) with
  | Some m => (m =? n)%N && (String.length (Decimal.two_digits n) =? 2)%nat
  | None => false
  end.

(** The number a count stands for, as [Number(v)] reads it. *)
Definition count_of (v : JS.value) : option Z :=
  match v with
  | JS.num n => Some n
  | JS.str s => option_map Z.of_N (Decimal.number s)
  end.

(** Two join orders: the rows by left row as they are listed, and the
    same rows from the last to the first. *)
Definition left_first : JoinOrder :=
  mkJoinOrder (fun A rows => rows) (fun A rows => Permutation_refl rows).

Definition last_first : JoinOrder :=
  mkJoinOrder (fun A rows => rev rows)
              (fun A rows => Permutation_sym (Permutation_rev rows)).

(** ** Sample databases *)

(** The empty database, with every sequence at its first value. *)
Definition empty_db : Db := mkDb [] [] [] [] [] [] 1 1.

(** A cart that holds one line: user 1, product 5, quantity 2. *)
Definition cart_1_5 : Db :=
  mkDb [] [] [] [CartItem.mk 1 1 5 (Some 2)] [] [] 2 1.

(** A small shop: an admin and two customers, two categories, five
    products of which the third is inactive, two orders with their items. *)
Definition admin : User.t := User.mk 1 "admin" "admin@shop.test" "x" "admin".
Definition ann : User.t := User.mk 2 "ann" "ann@shop.test" "x" "user".
Definition bob : User.t := User.mk 3 "bob" "bob@shop.test" "x" "user".

Definition electronics : Category.t := Category.mk 1 "Electronics" "electronics".
Definition books : Category.t := Category.mk 2 "Books" "books".

Definition laptop : Product.t :=
  Product.mk 1 "Laptop" "laptop" "A laptop" 99900 None "l.png" (Some 1) 10
             true true 45 12 100.
Definition phone : Product.t :=
  Product.mk 2 "Phone" "phone" "A phone" 59900 (Some 69900) "p.png" (Some 1) 3
             false true 40 7 200.
Definition novel : Product.t :=
  Product.mk 3 "Novel" "novel" "A novel" 1250 None "n.png" (Some 2) 20
             true false 50 3 300.
Definition tablet : Product.t :=
  Product.mk 4 "Tablet" "tablet" "A tablet" 39900 None "t.png" (Some 1) 5
             true true 42 9 400.
Definition camera : Product.t :=
  Product.mk 5 "Camera" "camera" "A camera" 24900 None "c.png" None 0
             false true 38 1 500.

Definition order1 : Order.t := Order.mk 1 2 101150 "pending" "1 Main St" "card" 1000.
Definition order2 : Order.t := Order.mk 2 3 59900 "completed" "2 Side St" "paypal" 2000.

Definition item1 : OrderItem.t := OrderItem.mk 1 1 1 1 99900.
Definition item2 : OrderItem.t := OrderItem.mk 2 1 3 1 1250.
Definition item3 : OrderItem.t := OrderItem.mk 3 2 2 1 59900.

(** A partial product record: a new price and a new stock. *)
Definition new_price_and_stock : PartialProduct.t :=
  PartialProduct.mk None None None (Some 49900) None None None
                    (Some 8) None None None None.

Definition shop : Db :=
  mkDb [admin; ann; bob] [electronics; books]
       [laptop; phone; novel; tablet; camera]
       [CartItem.mk 1 2 5 (Some 2)]
       [order1; order2] [item1; item2; item3] 2 4.

(** Four active products of which two were created at the same time. *)
Definition desk : Product.t :=
  Product.mk 1 "Desk" "desk" "A desk" 15000 None "d.png" None 4
             false true 40 2 400.
Definition chair : Product.t :=
  Product.mk 2 "Chair" "chair" "A chair" 7000 None "c.png" None 9
             false true 41 5 400.
Definition lamp : Product.t :=
  Product.mk 3 "Lamp" "lamp" "A lamp" 2500 None "l.png" None 30
             false true 39 8 200.
Definition shelf : Product.t :=
  Product.mk 4 "Shelf" "shelf" "A shelf" 9900 None "s.png" None 2
             false true 44 1 100.

Definition furniture : Db :=
  mkDb [] [] [desk; chair; lamp; shelf] [] [] [] 1 1.

(** ** Vocabulary for the rest of the storage layer *)

(** The cart lines of one user, in table order. *)
Definition cart_of (u : Z) (db : Db) : list CartItem.t :=
  Sql.where_ (fun c => CartItem.userId c =? u) (cartItems db).

(** The product row a line or an order item points to, if there is one. *)
Definition product_of (pid : Z) (db : Db) : option Product.t :=
  JS.first (Sql.where_ (fun p => Product.id p =? pid) (products db)).

(** The order items of one order, in table order. *)
Definition items_of (oid : Z) (db : Db) : list OrderItem.t :=
  Sql.where_ (fun i => OrderItem.orderId i =? oid) (orderItems db).

(** At most one cart line for every (user, product) pair. *)
Definition one_line_per_pair (db : Db) : Prop :=
  forall u p, (List.length (cart_lines u p db) <= 1)%nat.

(** The ids of the cart lines are pairwise different and below the next
    value of the sequence. *)
Definition cart_ids_fresh (db : Db) : Prop :=
  NoDup (map CartItem.id (cartItems db))
  /\ Forall (fun c => CartItem.id c < cartItems_id_seq db) (cartItems db).

(** The ids of the order items are pairwise different and below the next
    value of the sequence. *)
Definition orderItem_ids_fresh (db : Db) : Prop :=
  NoDup (map OrderItem.id (orderItems db))
  /\ Forall (fun i => OrderItem.id i < orderItems_id_seq db) (orderItems db).

(** A call of one of the cart methods that write. *)
Inductive CartCall : Type :=
| Call_addToCart (cartItem : InsertCartItem.t)
| Call_updateCartItem (id quantity : Z)
| Call_removeFromCart (id : Z)
| Call_clearCart (userId : Z).

Definition run_cart_call (call : CartCall) (db : Db) : Db :=
  match call with
  | Call_addToCart cartItem => after (DatabaseStorage.addToCart cartItem) db
  | Call_updateCartItem id quantity =>
      after (DatabaseStorage.updateCartItem id quantity) db
  | Call_removeFromCart id => after (DatabaseStorage.removeFromCart id) db
  | Call_clearCart userId => after (DatabaseStorage.clearCart userId) db
  end.

Definition run_cart_calls (calls : list CartCall) (db : Db) : Db :=
  fold_left (fun db call => run_cart_call call db) calls db.

(** What an update of the cart leaves alone. *)
Definition same_but_cart (db db' : Db) : Prop :=
  users db' = users db /\ categories db' = categories db
  /\ products db' = products db /\ orders db' = orders db
  /\ orderItems db' = orderItems db
  /\ orderItems_id_seq db' = orderItems_id_seq db.

(** What an update of the categories leaves alone. *)
Definition same_but_categories (db db' : Db) : Prop :=
  users db' = users db /\ products db' = products db
  /\ cartItems db' = cartItems db /\ orders db' = orders db
  /\ orderItems db' = orderItems db
  /\ cartItems_id_seq db' = cartItems_id_seq db
  /\ orderItems_id_seq db' = orderItems_id_seq db.

(** A bazaar: the products of the shop, and a cart table with lines of two
    users, the last of which points to a product that is gone. *)
Definition bazaar : Db :=
  mkDb [admin; ann; bob] [electronics; books]
       [laptop; phone; novel; tablet; camera]
       [CartItem.mk 1 2 5 (Some 2); CartItem.mk 2 2 1 (Some 1);
        CartItem.mk 3 3 1 (Some 4); CartItem.mk 4 3 9 (Some 1)]
       [order1; order2] [item1; item2; item3] 5 4.


(** * Properties *)

Local Open Scope list_scope.

(** ** Facts about the statements *)

Section SqlFacts.
Context {A : Type}.
Implicit Types (cond sel : A -> bool) (f : A -> A) (rows : list A).

Lemma update_Forall2 cond f rows :
  Forall2 (fun old new => new = if cond old then f old else old)
          rows (Sql.update cond f rows).
Proof.
  induction rows as [|r rows IH]; simpl; constructor; auto.
Qed.

Lemma update_untouched cond f rows :
  (forall r, In r rows -> cond r = false) ->
  Sql.update cond f rows = rows.
Proof.
  induction rows as [|r rows IH]; simpl; intros H; [reflexivity|].
  rewrite (H r) by now left.
  f_equal. apply IH. intros r' Hr'. apply H. now right.
Qed.

Lemma returning_untouched cond f rows :
  (forall r, In r rows -> cond r = false) ->
  Sql.returning cond f rows = [].
Proof.
  unfold Sql.returning.
  induction rows as [|r rows IH]; simpl; intros H; [reflexivity|].
  rewrite (H r) by now left.
  apply IH. intros r' Hr'. apply H. now right.
Qed.

(** A selection on columns that the update does not write commutes
    with the update. *)
Lemma where_update sel cond f rows :
  (forall r, sel (f r) = sel r) ->
  Sql.where_ sel (Sql.update cond f rows)
  = Sql.update cond f (Sql.where_ sel rows).
Proof.
  intros Hsel. unfold Sql.where_, Sql.update.
  induction rows as [|r rows IH]; simpl; [reflexivity|].
  destruct (cond r) eqn:Hc.
  - rewrite Hsel. destruct (sel r); simpl; rewrite ?Hc, IH; reflexivity.
  - destruct (sel r); simpl; rewrite ?Hc, IH; reflexivity.
Qed.

Lemma where_app sel rows rows' :
  Sql.where_ sel (rows ++ rows') = Sql.where_ sel rows ++ Sql.where_ sel rows'.
Proof. apply filter_app. Qed.

Lemma where_nil_iff sel rows :
  Sql.where_ sel rows = [] <-> (forall r, In r rows -> sel r = false).
Proof.
  unfold Sql.where_. split.
  - induction rows as [|r rows IH]; simpl; intros H x Hx; [contradiction|].
    destruct (sel r) eqn:Hr; [discriminate|].
    destruct Hx as [<-|Hx]; auto.
  - induction rows as [|r rows IH]; simpl; intros H; [reflexivity|].
    rewrite (H r) by now left. apply IH. intros x Hx. apply H. now right.
Qed.

End SqlFacts.

(** ** The cart *)

Lemma or_number_nonzero (q d : Z) : q <> 0 -> JS.or_number (Some q) d = q.
Proof.
  intros Hq. unfold JS.or_number, JS.truthy_number.
  destruct (Z.eqb_spec q 0); [contradiction | reflexivity].
Qed.

Lemma or_number_zero_default (q : Z) : JS.or_number (Some q) 0 = q.
Proof.
  unfold JS.or_number, JS.truthy_number.
  destruct (Z.eqb_spec q 0); simpl; congruence.
Qed.

(** With no line for the pair, [addToCart] appends one line that carries
    the given quantity and the next id of the sequence. *)
Lemma addToCart_absent (u p : Z) (q : option Z) (db : Db) :
  cart_lines u p db = [] ->
  DatabaseStorage.addToCart (InsertCartItem.mk u p q) db
  = let row := CartItem.mk (cartItems_id_seq db) u p
                 (match q with Some n => Some n | None => cartItems_quantity_default end) in
    (Some row,
     with_cartItems (cartItems db ++ [row]) (cartItems_id_seq db + 1) db).
Proof.
  intros Hnone. unfold cart_lines in Hnone.
  unfold DatabaseStorage.addToCart, bind, select_where. simpl.
  rewrite Hnone. reflexivity.
Qed.

(** With a line for the pair, [addToCart] rewrites the quantity of every
    row that has the id of the first such line. *)
Lemma addToCart_present (u p : Z) (q : option Z) (db : Db)
    (e : CartItem.t) (rest : list CartItem.t) :
  cart_lines u p db = e :: rest ->
  let q' := JS.or_number (CartItem.quantity e) 0 + JS.or_number q 1 in
  let hit := fun c => CartItem.id c =? CartItem.id e in
  DatabaseStorage.addToCart (InsertCartItem.mk u p q) db
  = (JS.first (Sql.returning hit (set_quantity q') (cartItems db)),
     with_cartItems (Sql.update hit (set_quantity q') (cartItems db))
                    (cartItems_id_seq db) db).
Proof.
  intros Hsome. unfold cart_lines in Hsome.
  unfold DatabaseStorage.addToCart, bind, select_where. simpl.
  rewrite Hsome. reflexivity.
Qed.

(** Two additions for one pair, the first on a cart without that pair:
    one line, with the sum of what each call contributes. *)
Lemma addToCart_twice (u p q1 : Z) (q2 : option Z) (db : Db) :
  cart_lines u p db = [] ->
  let db1 := after (DatabaseStorage.addToCart (InsertCartItem.mk u p (Some q1))) db in
  let db2 := after (DatabaseStorage.addToCart (InsertCartItem.mk u p q2)) db1 in
  cart_lines u p db2
  = [CartItem.mk (cartItems_id_seq db) u p (Some (q1 + JS.or_number q2 1))].
Proof.
  intros Hnone db1 db2.
  assert (H1 : cart_lines u p db1
               = [CartItem.mk (cartItems_id_seq db) u p (Some q1)]).
  { unfold db1, after. rewrite addToCart_absent by exact Hnone.
    unfold cart_lines in *. simpl. rewrite where_app, Hnone. simpl.
    rewrite !Z.eqb_refl. reflexivity. }
  unfold db2, after. rewrite (addToCart_present _ _ _ _ _ _ H1).
  unfold cart_lines. simpl.
  rewrite where_update by reflexivity.
  fold (cart_lines u p db1). rewrite H1. simpl.
  rewrite Z.eqb_refl.
  change (if JS.truthy_number q1 then q1 else 0) with (JS.or_number (Some q1) 0).
  rewrite or_number_zero_default. reflexivity.
Qed.

(** The merge of the spec's example, for every pair and every two
    quantities of which the second is not zero. *)
Lemma addToCart_merges (u p q1 q2 : Z) (db : Db) :
  cart_lines u p db = [] ->
  q2 <> 0 ->
  let db1 := after (DatabaseStorage.addToCart (InsertCartItem.mk u p (Some q1))) db in
  let db2 := after (DatabaseStorage.addToCart (InsertCartItem.mk u p (Some q2))) db1 in
  exists line,
    cart_lines u p db2 = [line] /\ CartItem.quantity line = Some (q1 + q2).
Proof.
  intros Hnone Hq2 db1 db2.
  eexists. split.
  - unfold db2, db1. apply addToCart_twice. exact Hnone.
  - cbn [CartItem.quantity]. rewrite or_number_nonzero by exact Hq2. reflexivity.
Qed.

(** C1 at a second quantity of 0: from a cart without a line for the
    pair, quantity [q1] and then quantity 0 leave one line, and its
    quantity is [q1 + 1], where the sum of the two requested quantities is
    [q1].  The first call inserts the line with the quantity it is given;
    the second call takes the quantity 0 as missing and adds 1. *)
Theorem addToCart_then_zero (u p q1 : Z) (db : Db) :
  cart_lines u p db = [] ->
  let db1 := after (DatabaseStorage.addToCart (InsertCartItem.mk u p (Some q1))) db in
  let db2 := after (DatabaseStorage.addToCart (InsertCartItem.mk u p (Some 0))) db1 in
  cart_lines u p db2 = [CartItem.mk (cartItems_id_seq db) u p (Some (q1 + 1))]
  /\ q1 + 1 <> q1 + 0.
Proof.
  intros Hnone db1 db2. split; [|lia].
  unfold db2, db1. rewrite addToCart_twice by exact Hnone. reflexivity.
Qed.

Lemma addToCart_then_zero_witness :
  cart_lines 1 5 empty_db = []
  /\ cart_lines 1 5
       (after (DatabaseStorage.addToCart (InsertCartItem.mk 1 5 (Some 0)))
          (after (DatabaseStorage.addToCart (InsertCartItem.mk 1 5 (Some 2)))
             empty_db))
     = [CartItem.mk 1 1 5 (Some 3)].
Proof.
  split; [reflexivity|].
  exact (proj1 (addToCart_then_zero 1 5 2 empty_db eq_refl)).
Defined.

(** C10: a call of [addToCart] with quantity 0.  When the pair has a line,
    the call returns a line whose quantity is the old quantity plus 1, the
    first line of the pair carries that quantity afterwards, and the cart
    is otherwise the old cart; a stored [null] counts as 0.  When the pair
    has no line, the call appends a line with quantity 0. *)
Theorem addToCart_zero_quantity (u p : Z) (db : Db) :
  let call := DatabaseStorage.addToCart (InsertCartItem.mk u p (Some 0)) in
  (forall e rest,
      cart_lines u p db = e :: rest ->
      let q' := JS.or_number (CartItem.quantity e) 0 + 1 in
      (forall q, CartItem.quantity e = Some q -> q' = q + 1)
      /\ (exists line, result call db = Some line
                       /\ CartItem.quantity line = Some q')
      /\ JS.first (cart_lines u p (after call db))
         = Some (CartItem.mk (CartItem.id e) (CartItem.userId e)
                             (CartItem.productId e) (Some q'))
      /\ Forall2 (fun old new =>
                    new = if CartItem.id old =? CartItem.id e
                          then CartItem.mk (CartItem.id old) (CartItem.userId old)
                                           (CartItem.productId old) (Some q')
                          else old)
                 (cartItems db) (cartItems (after call db)))
  /\ (cart_lines u p db = [] ->
      let row := CartItem.mk (cartItems_id_seq db) u p (Some 0) in
      result call db = Some row
      /\ cartItems (after call db) = cartItems db ++ [row]).
Proof.
  intros call. split.
  - intros e rest Hlines q'.
    assert (He : In e (cartItems db)).
    { assert (Hin : In e (cart_lines u p db)) by (rewrite Hlines; now left).
      unfold cart_lines, Sql.where_ in Hin. now apply filter_In in Hin. }
    unfold call, result, after.
    rewrite (addToCart_present _ _ _ _ _ _ Hlines).
    change (JS.or_number (Some 0) 1) with 1. fold q'. cbn [fst snd].
    repeat split.
    + intros q Hq. unfold q'. rewrite Hq, or_number_zero_default. reflexivity.
    + unfold Sql.returning.
      destruct (filter (fun c => CartItem.id c =? CartItem.id e) (cartItems db))
        as [|x xs] eqn:Hf.
      * exfalso.
        assert (Hx : In e (filter (fun c => CartItem.id c =? CartItem.id e)
                                  (cartItems db))).
        { apply filter_In. split; [exact He | apply Z.eqb_refl]. }
        rewrite Hf in Hx. contradiction.
      * eexists. split; reflexivity.
    + unfold cart_lines. cbn [cartItems with_cartItems].
      rewrite where_update by reflexivity.
      fold (cart_lines u p db). rewrite Hlines. simpl.
      rewrite Z.eqb_refl. reflexivity.
    + cbn [cartItems with_cartItems]. apply update_Forall2.
  - intros Hnone row. unfold call, result, after.
    rewrite addToCart_absent by exact Hnone. split; reflexivity.
Qed.

Lemma addToCart_zero_quantity_witness :
  cart_lines 1 5 cart_1_5 = [CartItem.mk 1 1 5 (Some 2)]
  /\ JS.first (cart_lines 1 5
       (after (DatabaseStorage.addToCart (InsertCartItem.mk 1 5 (Some 0))) cart_1_5))
     = Some (CartItem.mk 1 1 5 (Some 3))
  /\ cart_lines 1 5 empty_db = []
  /\ cartItems (after (DatabaseStorage.addToCart (InsertCartItem.mk 1 5 (Some 0))) empty_db)
     = [CartItem.mk 1 1 5 (Some 0)].
Proof.
  split; [reflexivity|]. split.
  - exact (proj1 (proj2 (proj2
      (proj1 (addToCart_zero_quantity 1 5 cart_1_5)
             (CartItem.mk 1 1 5 (Some 2)) [] eq_refl)))).
  - split; [reflexivity|].
    exact (proj2 (proj2 (addToCart_zero_quantity 1 5 empty_db) eq_refl)).
Defined.

(** ** Rows found by a key *)

Section Lookup.
Context {A K : Type} (key : A -> K) (eqb : K -> K -> bool).
Hypothesis eqb_spec : forall x y, reflect (x = y) (eqb x y).
Implicit Types (rows : list A) (k : K).

Lemma where_key_absent rows k :
  (forall r, In r rows -> key r <> k) ->
  Sql.where_ (fun r => eqb (key r) k) rows = [].
Proof.
  intros H. apply where_nil_iff. intros r Hr.
  destruct (eqb_spec (key r) k) as [E|E]; [now apply H in Hr | reflexivity].
Qed.

Lemma where_key_In rows k x :
  In x (Sql.where_ (fun r => eqb (key r) k) rows) <-> In x rows /\ key x = k.
Proof.
  unfold Sql.where_. rewrite filter_In.
  destruct (eqb_spec (key x) k); intuition congruence.
Qed.

(** The first row with a key is the row itself when no other row has
    the key. *)
Lemma first_where_key_only rows k r :
  In r rows -> key r = k ->
  (forall r', In r' rows -> key r' = k -> r' = r) ->
  JS.first (Sql.where_ (fun r => eqb (key r) k) rows) = Some r.
Proof.
  intros Hin Hk Honly.
  destruct (Sql.where_ (fun r => eqb (key r) k) rows) as [|x xs] eqn:Hw.
  - assert (Hr : In r (Sql.where_ (fun r => eqb (key r) k) rows))
      by now apply where_key_In.
    rewrite Hw in Hr. contradiction.
  - simpl. f_equal. apply Honly.
    + apply (proj1 (where_key_In rows k x)). rewrite Hw. now left.
    + apply (proj1 (where_key_In rows k x)). rewrite Hw. now left.
Qed.

(** A method that selects by the key and returns the first row. *)
Lemma lookup_by_first (table : Db -> list A) :
  lookup_by table key
    (fun k => rows <- select_where table (fun r => eqb (key r) k) ;;
              ret (JS.or_undefined (JS.first rows))).
Proof.
  intros db k. unfold bind, select_where, ret. split.
  - intros Habs. rewrite where_key_absent by exact Habs. reflexivity.
  - intros r Hin Hk Honly.
    rewrite (first_where_key_only _ _ _ Hin Hk Honly). reflexivity.
Qed.

End Lookup.

Lemma with_products_same (db : Db) : with_products (products db) db = db.
Proof. destruct db; reflexivity. Qed.

Lemma with_orders_same (db : Db) : with_orders (orders db) db = db.
Proof. destruct db; reflexivity. Qed.

(** C6: each of the six lookups returns [undefined] when no row has the
    key and the row when exactly that row has it, and is a function of the
    database that always returns: absence is a value, not an exception. *)
Theorem lookups_by_key :
  lookup_by users User.id DatabaseStorage.getUser
  /\ lookup_by users User.username DatabaseStorage.getUserByUsername
  /\ lookup_by users User.email DatabaseStorage.getUserByEmail
  /\ lookup_by categories Category.id DatabaseStorage.getCategoryById
  /\ lookup_by products Product.id DatabaseStorage.getProductById
  /\ lookup_by products Product.slug DatabaseStorage.getProductBySlug.
Proof.
  split; [|split; [|split; [|split; [|split]]]].
  - exact (lookup_by_first User.id Z.eqb Z.eqb_spec users).
  - exact (lookup_by_first User.username String.eqb String.eqb_spec users).
  - exact (lookup_by_first User.email String.eqb String.eqb_spec users).
  - exact (lookup_by_first Category.id Z.eqb Z.eqb_spec categories).
  - exact (lookup_by_first Product.id Z.eqb Z.eqb_spec products).
  - exact (lookup_by_first Product.slug String.eqb String.eqb_spec products).
Qed.

(** Goals about every row of a table that is written out. *)
Ltac each_row :=
  let r := fresh "r" in
  let Hin := fresh "Hin" in
  intros r Hin; simpl in Hin;
  repeat (destruct Hin as [<-|Hin]);
  try contradiction; try reflexivity; try discriminate;
  try (intros; discriminate); try (intros; reflexivity).

Lemma lookups_by_key_witness :
  DatabaseStorage.getUser 2 shop = (Some ann, shop)
  /\ DatabaseStorage.getUser 9 shop = (None, shop)
  /\ DatabaseStorage.getUserByUsername "bob" shop = (Some bob, shop)
  /\ DatabaseStorage.getUserByEmail "nobody@shop.test" shop = (None, shop)
  /\ DatabaseStorage.getCategoryById 2 shop = (Some books, shop)
  /\ DatabaseStorage.getProductById 3 shop = (Some novel, shop)
  /\ DatabaseStorage.getProductBySlug "camera" shop = (Some camera, shop)
  /\ DatabaseStorage.getProductBySlug "laptop-2" shop = (None, shop).
Proof.
  destruct lookups_by_key as (Hid & Hname & Hmail & Hcat & Hpid & Hslug).
  split; [|split; [|split; [|split; [|split; [|split; [|split]]]]]].
  - apply (proj2 (Hid shop 2)); [simpl; tauto | reflexivity | each_row].
  - apply (proj1 (Hid shop 9)). each_row.
  - apply (proj2 (Hname shop "bob")); [simpl; tauto | reflexivity | each_row].
  - apply (proj1 (Hmail shop "nobody@shop.test")). each_row.
  - apply (proj2 (Hcat shop 2)); [simpl; tauto | reflexivity | each_row].
  - apply (proj2 (Hpid shop 3)); [simpl; tauto | reflexivity | each_row].
  - apply (proj2 (Hslug shop "camera")); [simpl; tauto | reflexivity | each_row].
  - apply (proj1 (Hslug shop "laptop-2")). each_row.
Defined.

(** ** Updates of products *)

Lemma set_stock_minus_same_but_stock (q : Z) (r : Product.t) :
  same_but_stock r (set_stock_minus q r).
Proof. unfold same_but_stock. simpl. tauto. Qed.


Lemma update_products_frame cond f (db : Db) :
  same_but_products db (after (update_products cond f) db).
Proof. unfold same_but_products. simpl. tauto. Qed.

(** C3: [updateProductStock id q] writes [stock - q] into every product
    row with that id, whatever the sign of the result, keeps every other
    column of such a row, keeps every other product row, and keeps every
    other table. *)
Theorem updateProductStock_exact (id q : Z) (db : Db) :
  let db' := after (DatabaseStorage.updateProductStock id q) db in
  Forall2 (fun old new =>
             if Product.id old =? id
             then Product.stock new = Product.stock old - q
                  /\ (Product.stock old < q -> Product.stock new < 0)
                  /\ same_but_stock old new
             else new = old)
          (products db) (products db')
  /\ same_but_products db db'.
Proof.
  intros db'. split.
  - unfold db', after, DatabaseStorage.updateProductStock, bind, update_products.
    cbn [snd products with_products ret].
    eapply Forall2_impl; [|apply update_Forall2].
    intros old new Hnew. cbn beta in Hnew.
    destruct (Product.id old =? id); [|exact Hnew].
    subst new. split; [reflexivity|]. split.
    + simpl. lia.
    + apply set_stock_minus_same_but_stock.
  - apply (update_products_frame (fun p => Product.id p =? id) (set_stock_minus q)).
Qed.

Lemma updateProductStock_exact_witness :
  Forall2 (fun old new =>
             if Product.id old =? 2
             then Product.stock new = Product.stock old - 4
                  /\ (Product.stock old < 4 -> Product.stock new < 0)
                  /\ same_but_stock old new
             else new = old)
          [laptop; phone; novel; tablet; camera]
          (products (after (DatabaseStorage.updateProductStock 2 4) shop)).
Proof.
  exact (proj1 (updateProductStock_exact 2 4 shop)).
Defined.

(** On the sample shop, a decrement of 4 takes the stock 3 of the phone
    to -1. *)
Example updateProductStock_below_zero :
  map Product.stock
      (products (after (DatabaseStorage.updateProductStock 2 4) shop))
  = [10; -1; 20; 5; 0].
Proof. reflexivity. Qed.

Lemma first_map {A B : Type} (f : A -> B) (rows : list A) :
  JS.first (map f rows) = option_map f (JS.first rows).
Proof. destruct rows; reflexivity. Qed.

Lemma update_In {A : Type} (cond : A -> bool) (f : A -> A) (rows : list A) (r : A) :
  In r rows -> cond r = true -> In (f r) (Sql.update cond f rows).
Proof.
  intros Hin Hc. unfold Sql.update.
  apply in_map_iff. exists r. rewrite Hc. split; [reflexivity | exact Hin].
Qed.

Lemma updateProduct_tables (id : Z) (p : PartialProduct.t) (db : Db) :
  same_but_products db (after (DatabaseStorage.updateProduct id p) db).
Proof.
  unfold DatabaseStorage.updateProduct, mapUpdateSet, after.
  destruct (PartialProduct.is_empty p).
  - unfold same_but_products. simpl. tauto.
  - apply (update_products_frame (fun r => Product.id r =? id) (set_product p)).
Qed.




(** ** Orders *)

Lemma set_status_same_but_status (status : string) (r : Order.t) :
  same_but_status r (set_status status r).
Proof. unfold same_but_status. simpl. tauto. Qed.

(** C7: [updateOrderStatus id status] writes the status, and nothing
    else, into every order row with that id, keeps every other order row
    and every other table, the order items among them, and returns the
    row it has written, or [undefined] with the database as before when no
    order has the id.  An order item created with a price keeps that price
    through a later update of any product and a later update of any
    order's status. *)
Theorem updateOrderStatus_frame (id : Z) (status : string) (db : Db) :
  let res := result (DatabaseStorage.updateOrderStatus id status) db in
  let db' := after (DatabaseStorage.updateOrderStatus id status) db in
  Forall2 (fun old new =>
             if Order.id old =? id
             then Order.status new = status /\ same_but_status old new
             else new = old)
          (orders db) (orders db')
  /\ same_but_orders db db'
  /\ ((forall r, In r (orders db) -> Order.id r <> id) ->
      res = None /\ db' = db)
  /\ (forall r, In r (orders db) -> Order.id r = id ->
        (forall r', In r' (orders db) -> Order.id r' = id -> r' = r) ->
        exists new, res = Some new /\ Order.status new = status
                    /\ same_but_status r new /\ In new (orders db'))
  /\ (forall pid partial,
        orderItems (after (DatabaseStorage.updateOrderStatus id status)
                      (after (DatabaseStorage.updateProduct pid partial) db))
        = orderItems db)
  /\ (forall v pid partial,
        let db1 := after (DatabaseStorage.createOrderItem v) db in
        let db2 := after (DatabaseStorage.updateProduct pid partial) db1 in
        let db3 := after (DatabaseStorage.updateOrderStatus id status) db2 in
        exists item,
          result (DatabaseStorage.createOrderItem v) db = Some item
          /\ OrderItem.price item = InsertOrderItem.price v
          /\ orderItems db3 = orderItems db ++ [item]).
Proof.
  intros res db'.
  unfold res, db', result, after, DatabaseStorage.updateOrderStatus, bind,
    update_orders, ret.
  cbn [fst snd orders with_orders].
  split; [|split; [|split; [|split; [|split]]]].
  - eapply Forall2_impl; [|apply update_Forall2].
    intros old new Hnew. cbn beta in Hnew.
    destruct (Order.id old =? id); [|exact Hnew].
    subst new. split; [reflexivity | apply set_status_same_but_status].
  - unfold same_but_orders. simpl. tauto.
  - intros Habs.
    assert (Hc : forall r, In r (orders db) -> (Order.id r =? id) = false).
    { intros r Hr. apply Z.eqb_neq. now apply Habs. }
    rewrite returning_untouched, update_untouched by exact Hc.
    split; [reflexivity | apply with_orders_same].
  - intros r Hin Hid Honly.
    exists (set_status status r). unfold Sql.returning.
    rewrite first_map.
    change (filter (fun r0 => Order.id r0 =? id) (orders db))
      with (Sql.where_ (fun r0 => Order.id r0 =? id) (orders db)).
    rewrite (first_where_key_only Order.id Z.eqb Z.eqb_spec _ _ _ Hin Hid Honly).
    split; [reflexivity|]. split; [reflexivity|].
    split; [apply set_status_same_but_status|].
    apply update_In; [exact Hin | now apply Z.eqb_eq].
  - intros pid partial. cbn [orderItems with_orders].
    apply (updateProduct_tables pid partial db).
  - intros v pid partial. eexists.
    split; [reflexivity|]. split; [reflexivity|].
    cbn [orderItems with_orders].
    fold (after (DatabaseStorage.createOrderItem v) db).
    apply (updateProduct_tables pid partial
             (after (DatabaseStorage.createOrderItem v) db)).
Qed.

Lemma updateOrderStatus_frame_witness :
  (exists new,
      result (DatabaseStorage.updateOrderStatus 1 "completed") shop = Some new
      /\ Order.status new = "completed" /\ same_but_status order1 new)
  /\ after (DatabaseStorage.updateOrderStatus 7 "cancelled") shop = shop
  /\ map OrderItem.price
       (orderItems (after (DatabaseStorage.updateOrderStatus 1 "completed")
          (after (DatabaseStorage.updateProduct 1 new_price_and_stock) shop)))
     = [99900; 1250; 59900].
Proof.
  split; [|split].
  - destruct (proj1 (proj2 (proj2 (proj2
        (updateOrderStatus_frame 1 "completed" shop)))) order1)
      as (new & Hres & Hs & Hsame & _).
    + simpl. tauto.
    + reflexivity.
    + each_row.
    + exists new. split; [exact Hres | split; [exact Hs | exact Hsame]].
  - apply (proj1 (proj2 (proj2 (updateOrderStatus_frame 7 "cancelled" shop)))).
    each_row.
  - rewrite (proj1 (proj2 (proj2 (proj2 (proj2
        (updateOrderStatus_frame 1 "completed" shop)))))).
    reflexivity.
Defined.

(** ** Ordered and paged results *)

Section OrderBy.
Context {A : Type} (key : A -> Z).
Implicit Types (r : A) (rows : list A).

Lemma insert_desc_Permutation r rows :
  Permutation (r :: rows) (Sql.insert_desc key r rows).
Proof.
  induction rows as [|s rows IH]; simpl; [apply Permutation_refl|].
  destruct (key s <=? key r); [apply Permutation_refl|].
  apply perm_trans with (s :: r :: rows); [apply perm_swap|].
  now apply perm_skip.
Qed.

Lemma orderBy_desc_Permutation rows :
  Permutation rows (Sql.orderBy_desc key rows).
Proof.
  induction rows as [|r rows IH]; simpl; [apply perm_nil|].
  apply perm_trans with (r :: Sql.orderBy_desc key rows).
  - now apply perm_skip.
  - apply insert_desc_Permutation.
Qed.

Lemma orderBy_desc_In rows r :
  In r (Sql.orderBy_desc key rows) <-> In r rows.
Proof.
  split; apply Permutation_in;
    [apply Permutation_sym|]; apply orderBy_desc_Permutation.
Qed.

Lemma orderBy_desc_length rows :
  List.length (Sql.orderBy_desc key rows) = List.length rows.
Proof. symmetry. apply Permutation_length, orderBy_desc_Permutation. Qed.

Lemma insert_desc_newest_first r rows :
  newest_first key rows -> newest_first key (Sql.insert_desc key r rows).
Proof.
  unfold newest_first.
  induction rows as [|s rows IH]; simpl; intros Hs.
  - constructor; constructor.
  - apply StronglySorted_inv in Hs. destruct Hs as [Hrows Hall].
    destruct (Z.leb_spec (key s) (key r)) as [Hle|Hlt].
    + constructor; [constructor; assumption|].
      constructor; [exact Hle|].
      eapply Forall_impl; [|exact Hall]. intros x Hx. cbn beta in Hx. lia.
    + constructor; [now apply IH|].
      eapply Permutation_Forall; [apply insert_desc_Permutation|].
      constructor; [lia | exact Hall].
Qed.

Lemma orderBy_desc_newest_first rows :
  newest_first key (Sql.orderBy_desc key rows).
Proof.
  induction rows as [|r rows IH]; simpl.
  - constructor.
  - now apply insert_desc_newest_first.
Qed.

(** Rows with pairwise different keys come out strictly ordered. *)
Lemma newest_first_strict rows :
  newest_first key rows -> NoDup (map key rows) ->
  strictly_newest_first key rows.
Proof.
  unfold newest_first, strictly_newest_first.
  induction rows as [|r rows IH]; simpl; intros Hs Hnd; [constructor|].
  apply StronglySorted_inv in Hs. destruct Hs as [Hrows Hall].
  apply NoDup_cons_iff in Hnd. destruct Hnd as [Hnotin Hnd].
  constructor; [now apply IH|].
  rewrite Forall_forall in *. intros x Hx.
  specialize (Hall x Hx). cbn beta in Hall.
  assert (key x <> key r).
  { intros E. apply Hnotin. rewrite <- E. now apply in_map. }
  lia.
Qed.

Lemma orderBy_desc_strict rows :
  NoDup (map key rows) ->
  strictly_newest_first key (Sql.orderBy_desc key rows).
Proof.
  intros Hnd. apply newest_first_strict.
  - apply orderBy_desc_newest_first.
  - eapply Permutation_NoDup; [|exact Hnd].
    apply Permutation_map, orderBy_desc_Permutation.
Qed.

Lemma strictly_newest_first_NoDup rows :
  strictly_newest_first key rows -> NoDup rows.
Proof.
  unfold strictly_newest_first.
  induction 1 as [|r rows Hs IH Hall]; constructor; [|exact IH].
  intros Hin. rewrite Forall_forall in Hall.
  specialize (Hall r Hin). cbn beta in Hall. lia.
Qed.

End OrderBy.

Section Pages.
Context {A : Type}.
Implicit Types (rows : list A) (R : A -> A -> Prop).

Lemma StronglySorted_firstn R n rows :
  StronglySorted R rows -> StronglySorted R (firstn n rows).
Proof.
  intros Hs. revert n.
  induction Hs as [|r rows Hs IH Hall]; intros [|n]; simpl; try constructor.
  - apply IH.
  - rewrite Forall_forall in *. intros x Hx. apply Hall.
    rewrite <- (firstn_skipn n rows). apply in_or_app. now left.
Qed.

Lemma StronglySorted_skipn R n rows :
  StronglySorted R rows -> StronglySorted R (skipn n rows).
Proof.
  intros Hs. revert n.
  induction Hs as [|r rows Hs IH Hall]; intros [|n]; simpl;
    try constructor; auto.
Qed.

Lemma limit_offset_In l o rows r :
  In r (Sql.limit_offset l o rows) -> In r rows.
Proof.
  unfold Sql.limit_offset. intros Hin.
  rewrite <- (firstn_skipn o rows). apply in_or_app. right.
  rewrite <- (firstn_skipn l (skipn o rows)). apply in_or_app. now left.
Qed.

Lemma limit_In l rows r : In r (Sql.limit l rows) -> In r rows.
Proof.
  unfold Sql.limit. intros Hin.
  rewrite <- (firstn_skipn l rows). apply in_or_app. now left.
Qed.

Lemma limit_offset_length l o rows :
  (List.length (Sql.limit_offset l o rows) <= l)%nat.
Proof. apply firstn_le_length. Qed.

Lemma limit_offset_sorted R l o rows :
  StronglySorted R rows -> StronglySorted R (Sql.limit_offset l o rows).
Proof.
  intros Hs. now apply StronglySorted_firstn, StronglySorted_skipn.
Qed.

Lemma firstn_then_firstn a b rows :
  firstn a rows ++ firstn b (skipn a rows) = firstn (a + b) rows.
Proof.
  revert rows. induction a as [|a IH]; intros rows; [reflexivity|].
  destruct rows as [|r rows]; simpl.
  - now destruct b.
  - f_equal. apply IH.
Qed.

(** Two consecutive pages are the first rows of the whole result. *)
Lemma consecutive_pages l rows :
  Sql.limit_offset l 0 rows ++ Sql.limit_offset l l rows
  = firstn (l + l) rows.
Proof. unfold Sql.limit_offset. apply firstn_then_firstn. Qed.

End Pages.

Lemma NoDup_app_disjoint {A : Type} (l1 l2 : list A) :
  NoDup (l1 ++ l2) -> forall x, In x l1 -> ~ In x l2.
Proof.
  induction l1 as [|a l1 IH]; simpl; intros Hnd x Hx; [contradiction|].
  apply NoDup_cons_iff in Hnd. destruct Hnd as [Ha Hnd].
  destruct Hx as [<-|Hx].
  - intros H2. apply Ha. apply in_or_app. now right.
  - now apply IH.
Qed.

(** ** Decimal strings *)

Section DecimalFacts.

Lemma split_point_digits (d : Decimal.uint) (rest : string) :
  Decimal.split_point (NilEmpty.string_of_uint d ++ String "." rest)%string
  = (NilEmpty.string_of_uint d, Some rest).
Proof.
  induction d; simpl; rewrite ?IHd; reflexivity.
Qed.

Lemma number_string_of_uint (d : Decimal.uint) :
  d <> Decimal.Nil ->
  Decimal.number (NilEmpty.string_of_uint d) = Some (N.of_uint d).
Proof.
  intros Hd. unfold Decimal.number.
  rewrite NilEmpty.usu.
  destruct d; simpl; try reflexivity. contradiction.
Qed.

Lemma to_uint_nonnil (n : N) : N.to_uint n <> Decimal.Nil.
Proof.
  destruct n; simpl; [discriminate | apply DecimalPos.Unsigned.to_uint_nonnil].
Qed.

Lemma number_digits (n : N) : Decimal.number (Decimal.digits n) = Some n.
Proof.
  unfold Decimal.digits.
  rewrite number_string_of_uint by apply to_uint_nonnil.
  now rewrite DecimalN.Unsigned.of_to.
Qed.

(** The text of a number starts with a character that is not a sign. *)
Lemma digits_head (n : N) :
  exists c s, Decimal.digits n = String c s /\ Ascii.eqb c "-" = false.
Proof.
  unfold Decimal.digits. pose proof (to_uint_nonnil n) as Hn.
  destruct (N.to_uint n); simpl; try contradiction;
    eexists; eexists; split; reflexivity.
Qed.

Lemma two_digits_below_100 (n : N) :
  (n < 100)%N ->
  Decimal.number (Decimal.two_digits n) = Some n
  /\ String.length (Decimal.two_digits n) = 2%nat.
Proof.
  intros Hn.
  assert (Hall : forallb two_digits_ok (map N.of_nat (seq 0 100)) = true)
    by (vm_compute; reflexivity).
  rewrite forallb_forall in Hall.
  assert (Hok : two_digits_ok n = true).
  { apply Hall. apply in_map_iff. exists (N.to_nat n).
    split; [apply N2Nat.id | apply in_seq; lia]. }
  unfold two_digits_ok in Hok.
  destruct (Decimal.number (Decimal.two_digits n)) as [m|]; [|discriminate].
  apply andb_prop in Hok. destruct Hok as [Hm Hl].
  apply N.eqb_eq in Hm. apply Nat.eqb_eq in Hl. subst m. auto.
Qed.

Lemma magnitude_digits (a : N) :
  Decimal.magnitude
    (Decimal.digits (a / 100) ++ "." ++ Decimal.two_digits (a mod 100))%string
  = Some a.
Proof.
  unfold Decimal.magnitude.
  change ("." ++ Decimal.two_digits (a mod 100))%string
    with (String "." (Decimal.two_digits (a mod 100))).
  unfold Decimal.digits at 1. rewrite split_point_digits.
  fold (Decimal.digits (a / 100)). rewrite number_digits.
  destruct (two_digits_below_100 (a mod 100)) as [Hnum Hlen].
  { apply N.mod_lt. discriminate. }
  rewrite Hnum, Hlen. f_equal.
  rewrite (N.div_mod a 100) at 3 by discriminate. lia.
Qed.

(** Reading the text of a value gives the value back. *)
Lemma of_string_to_string (d : Z) :
  Decimal.of_string (Decimal.to_string d) = Some d.
Proof.
  unfold Decimal.to_string.
  destruct (Z.ltb_spec d 0) as [Hneg|Hpos].
  - change ("-" ++ ?s)%string with (String "-" s).
    unfold Decimal.of_string.
    rewrite magnitude_digits. simpl. f_equal. lia.
  - change ("" ++ ?s)%string with s.
    destruct (digits_head (Z.to_N (Z.abs d) / 100)) as (c & s & Hd & Hc).
    assert (Hread : forall t, Decimal.of_string (String c s ++ t)%string
                              = option_map Z.of_N
                                  (Decimal.magnitude (String c s ++ t)%string)).
    { intros t. unfold Decimal.of_string. simpl.
      destruct c as [[] [] [] [] [] [] [] []]; try reflexivity; discriminate. }
    rewrite Hd at 1. rewrite Hread, <- Hd.
    rewrite magnitude_digits. simpl. f_equal. lia.
Qed.

Lemma to_string_truthy (d : Z) : JS.truthy_string (Decimal.to_string d) = true.
Proof.
  unfold Decimal.to_string, JS.truthy_string.
  destruct (d <? 0); [reflexivity|].
  destruct (digits_head (Z.to_N (Z.abs d) / 100)) as (c & s & Hd & _).
  rewrite Hd. reflexivity.
Qed.

End DecimalFacts.

(** The text of a count is a string that is not empty, so [count || 0] is
    that string, and it reads back as the count. *)
Lemma or_text_int8 (n : Z) : JS.or_text (int8_text n) 0 = JS.str (int8_text n).
Proof.
  unfold JS.or_text, JS.truthy_string, int8_text.
  destruct (n <? 0); [reflexivity|].
  destruct (digits_head (Z.to_N (Z.abs n))) as (c & t & Hd & _).
  rewrite Hd. reflexivity.
Qed.

Lemma count_of_int8_text (k : nat) :
  count_of (JS.str (int8_text (Z.of_nat k))) = Some (Z.of_nat k).
Proof.
  unfold count_of, int8_text.
  destruct (Z.ltb_spec (Z.of_nat k) 0) as [Hneg|_]; [lia|].
  change (("" ++ ?t)%string) with t.
  rewrite number_digits. simpl. f_equal. lia.
Qed.

(** ** Product listings *)

Section ListingFacts.
Variable ilike : string -> string -> bool.

(** Whatever the filters, the first condition asks for an active row. *)
Lemma getProducts_conditions_active categoryId search p :
  DatabaseStorage.and_
    (DatabaseStorage.getProducts_conditions ilike categoryId search) p = true ->
  Product.isActive p = true.
Proof.
  unfold DatabaseStorage.getProducts_conditions, DatabaseStorage.and_.
  destruct (JS.when_number categoryId), (JS.when_string search);
    simpl; intros H; apply andb_prop in H; destruct H as [H _];
    now destruct (Product.isActive p).
Qed.

Lemma getProducts_unfiltered limit offset db :
  result (DatabaseStorage.getProducts ilike limit offset None None) db
  = Sql.limit_offset (JS.default limit 20%nat) (JS.default offset 0%nat)
      (Sql.orderBy_desc Product.createdAt (active_products db)).
Proof.
  unfold DatabaseStorage.getProducts, select_all, result, active_products.
  cbn [fst]. do 2 f_equal. unfold Sql.where_.
  apply filter_ext. intros p. unfold DatabaseStorage.and_. simpl.
  apply andb_true_r.
Qed.

Lemma getProducts_rows limit offset categoryId search db p :
  In p (result (DatabaseStorage.getProducts ilike limit offset categoryId search) db) ->
  Product.isActive p = true /\ In p (products db).
Proof.
  unfold DatabaseStorage.getProducts, select_all, result. cbn [fst].
  intros Hin. apply limit_offset_In in Hin.
  apply orderBy_desc_In in Hin.
  unfold Sql.where_ in Hin. apply filter_In in Hin. destruct Hin as [Hin Hc].
  split; [|exact Hin].
  now apply getProducts_conditions_active in Hc.
Qed.

End ListingFacts.

Lemma getFeaturedProducts_rows limit db p :
  In p (result (DatabaseStorage.getFeaturedProducts limit) db) ->
  Product.isActive p = true /\ Product.isFeatured p = true /\ In p (products db).
Proof.
  unfold DatabaseStorage.getFeaturedProducts, select_all, result. cbn [fst].
  intros Hin. apply limit_In in Hin. apply orderBy_desc_In in Hin.
  unfold Sql.where_ in Hin. apply filter_In in Hin. destruct Hin as [Hin Hc].
  apply andb_prop in Hc. destruct Hc as [Ha Hf].
  destruct (Product.isActive p), (Product.isFeatured p); try discriminate.
  auto.
Qed.

Lemma getOrderStats_totalProducts db :
  Stats.totalProducts (result DatabaseStorage.getOrderStats db)
  = JS.str (int8_text (Z.of_nat (List.length (products db)))).
Proof.
  unfold DatabaseStorage.getOrderStats, result, bind, select_all, ret.
  cbn [fst Stats.totalProducts]. apply or_text_int8.
Qed.

(** C2: a product with [isActive = false] is in no result of
    [getProducts] and in no result of [getFeaturedProducts], whatever the
    arguments, and [totalProducts] of [getOrderStats] is the number of all
    product rows, as the text the database returns for a count: with the
    inactive row in the table it stands for one more than without it. *)
Theorem inactive_hidden_but_counted (ilike : string -> string -> bool)
    (db : Db) (p : Product.t) :
  Product.isActive p = false ->
  (forall limit offset categoryId search,
      ~ In p (result (DatabaseStorage.getProducts ilike limit offset
                        categoryId search) db))
  /\ (forall limit, ~ In p (result (DatabaseStorage.getFeaturedProducts limit) db))
  /\ (Stats.totalProducts (result DatabaseStorage.getOrderStats db)
      = JS.str (int8_text (Z.of_nat (List.length (products db))))
      /\ count_of (Stats.totalProducts (result DatabaseStorage.getOrderStats db))
         = Some (Z.of_nat (List.length (products db))))
  /\ (forall before behind,
        products db = before ++ p :: behind ->
        exists n,
          count_of (Stats.totalProducts
                      (result DatabaseStorage.getOrderStats
                              (with_products (before ++ behind) db))) = Some n
          /\ count_of (Stats.totalProducts
                         (result DatabaseStorage.getOrderStats db)) = Some (n + 1)).
Proof.
  intros Hoff. split; [|split; [|split]].
  - intros limit offset categoryId search Hin.
    apply getProducts_rows in Hin. destruct Hin as [Hon _]. congruence.
  - intros limit Hin.
    apply getFeaturedProducts_rows in Hin. destruct Hin as [Hon _]. congruence.
  - rewrite getOrderStats_totalProducts. split; [reflexivity|].
    apply count_of_int8_text.
  - intros before behind Hsplit.
    exists (Z.of_nat (List.length (before ++ behind))).
    rewrite !getOrderStats_totalProducts, !count_of_int8_text.
    cbn [products with_products]. split; [reflexivity|].
    rewrite Hsplit, !length_app. simpl. f_equal. lia.
Qed.

Lemma inactive_hidden_but_counted_witness :
  Product.isActive novel = false
  /\ ~ In novel (result (DatabaseStorage.getProducts ilike_ascii (Some 100%nat) None
                           (Some 2) (Some "nov")) shop)
  /\ ~ In novel (result (DatabaseStorage.getFeaturedProducts None) shop)
  /\ Stats.totalProducts (result DatabaseStorage.getOrderStats shop) = JS.str "5"
  /\ count_of (Stats.totalProducts (result DatabaseStorage.getOrderStats shop))
     = Some 5.
Proof.
  pose proof (inactive_hidden_but_counted ilike_ascii shop novel eq_refl)
    as (Hlist & Hfeat & (Htext & Hcount) & _).
  split; [reflexivity|]. split; [apply Hlist|]. split; [apply Hfeat|].
  split; [exact Htext | exact Hcount].
Defined.

(** C4, as the code has it: [getProducts] returns active rows of the
    table, no row older than a row after it, at most [limit] of them
    (20 by default) after the first [offset] (0 by default) of the ordered
    rows.  When the active products have pairwise different creation times
    and there are at least four of them, the page [limit = 2, offset = 0]
    and the page [limit = 2, offset = 2] hold two rows each, and the four
    rows are strictly newest first, hence distinct, and no row is on both
    pages. *)
Theorem getProducts_pages (ilike : string -> string -> bool) (db : Db) :
  (forall limit offset categoryId search,
      let page := result (DatabaseStorage.getProducts ilike limit offset
                            categoryId search) db in
      (List.length page <= JS.default limit 20)%nat
      /\ Forall (fun p => Product.isActive p = true /\ In p (products db)) page
      /\ newest_first Product.createdAt page)
  /\ (forall limit offset,
        result (DatabaseStorage.getProducts ilike limit offset None None) db
        = firstn (JS.default limit 20%nat)
            (skipn (JS.default offset 0%nat)
               (Sql.orderBy_desc Product.createdAt (active_products db))))
  /\ (NoDup (map Product.createdAt (active_products db)) ->
      (4 <= List.length (active_products db))%nat ->
      let page1 := result (DatabaseStorage.getProducts ilike (Some 2%nat)
                             (Some 0%nat) None None) db in
      let page2 := result (DatabaseStorage.getProducts ilike (Some 2%nat)
                             (Some 2%nat) None None) db in
      List.length page1 = 2%nat /\ List.length page2 = 2%nat
      /\ strictly_newest_first Product.createdAt (page1 ++ page2)
      /\ NoDup (page1 ++ page2)
      /\ (forall p, In p page1 -> ~ In p page2)).
Proof.
  split; [|split].
  - intros limit offset categoryId search page. split; [|split].
    + apply limit_offset_length.
    + apply Forall_forall. intros p Hp.
      now apply getProducts_rows in Hp.
    + apply limit_offset_sorted, orderBy_desc_newest_first.
  - intros limit offset. apply getProducts_unfiltered.
  - intros Hdiff Hfour page1 page2.
    unfold page1, page2. rewrite !getProducts_unfiltered.
    cbn [JS.default].
    set (sorted := Sql.orderBy_desc Product.createdAt (active_products db)).
    assert (Hlen : (4 <= List.length sorted)%nat).
    { unfold sorted. now rewrite orderBy_desc_length. }
    assert (Hstrict : strictly_newest_first Product.createdAt
                        (Sql.limit_offset 2 0 sorted ++ Sql.limit_offset 2 2 sorted)).
    { rewrite consecutive_pages.
      apply StronglySorted_firstn. now apply orderBy_desc_strict. }
    assert (Hnd : NoDup (Sql.limit_offset 2 0 sorted ++ Sql.limit_offset 2 2 sorted)).
    { eapply strictly_newest_first_NoDup. exact Hstrict. }
    split; [|split; [|split; [|split]]].
    + unfold Sql.limit_offset. rewrite length_firstn, length_skipn. lia.
    + unfold Sql.limit_offset. rewrite length_firstn, length_skipn. lia.
    + exact Hstrict.
    + exact Hnd.
    + now apply NoDup_app_disjoint.
Qed.

Lemma getProducts_pages_witness :
  result (DatabaseStorage.getProducts ilike_ascii (Some 2%nat) (Some 0%nat)
            None None) shop
  ++ result (DatabaseStorage.getProducts ilike_ascii (Some 2%nat) (Some 2%nat)
               None None) shop
  = [camera; tablet; phone; laptop]
  /\ strictly_newest_first Product.createdAt
       (result (DatabaseStorage.getProducts ilike_ascii (Some 2%nat) (Some 0%nat)
                  None None) shop
        ++ result (DatabaseStorage.getProducts ilike_ascii (Some 2%nat)
                     (Some 2%nat) None None) shop).
Proof.
  split; [reflexivity|].
  apply (proj2 (proj2 (getProducts_pages ilike_ascii shop))).
  - repeat constructor; simpl; intuition discriminate.
  - simpl. lia.
Defined.

(** C4 as stated fails where creation times coincide: the furniture shop
    has four active products, and its first two pages hold the desk and
    the chair, both created at 400, next to each other. *)
Lemma getProducts_ties_not_strict :
  let page1 := result (DatabaseStorage.getProducts ilike_ascii (Some 2%nat)
                         (Some 0%nat) None None) furniture in
  let page2 := result (DatabaseStorage.getProducts ilike_ascii (Some 2%nat)
                         (Some 2%nat) None None) furniture in
  (4 <= List.length (active_products furniture))%nat
  /\ page1 ++ page2 = [desk; chair; lamp; shelf]
  /\ ~ strictly_newest_first Product.createdAt (page1 ++ page2).
Proof.
  split; [simpl; lia|]. split; [reflexivity|].
  intros Hs. unfold strictly_newest_first in Hs.
  change (StronglySorted
            (fun a b => Product.createdAt b < Product.createdAt a)
            [desk; chair; lamp; shelf]) in Hs.
  apply StronglySorted_inv in Hs. destruct Hs as [_ Hall].
  apply Forall_inv in Hall. simpl in Hall. lia.
Qed.

(** ** Order listings *)

(** A fan-out of statements that only read leaves the database as it was
    and collects one result per element. *)
Lemma mapM_reads {A B : Type} (f : A -> Query B) (l : list A) (db : Db) :
  (forall a, after (f a) db = db) ->
  mapM f l db = (map (fun a => result (f a) db) l, db).
Proof.
  intros Hread. induction l as [|a l IH]; simpl; [reflexivity|].
  unfold bind, ret. specialize (Hread a). unfold after, result in *.
  destruct (f a db) as [b db1]. simpl in Hread. subst db1.
  rewrite IH. reflexivity.
Qed.

Lemma getOrders_orders (jo : JoinOrder) userId limit offset db :
  map OrderWithItems.order (result (DatabaseStorage.getOrders jo userId limit offset) db)
  = Sql.limit_offset (JS.default limit 20%nat) (JS.default offset 0%nat)
      (Sql.orderBy_desc Order.createdAt
         (match JS.when_number userId with
          | Some u => Sql.where_ (fun o => Order.userId o =? u) (orders db)
          | None => orders db
          end)).
Proof.
  unfold DatabaseStorage.getOrders, result, bind.
  destruct (JS.when_number userId); unfold select_all;
    rewrite mapM_reads by reflexivity; cbn [fst];
    rewrite map_map; cbn [OrderWithItems.order]; apply map_id.
Qed.

(** C9: [getOrders] with [userId = 0] is [getOrders] without a [userId]:
    the same result and the same database.  The orders of that result are
    the page [limit], [offset] of all orders of the table, whoever they
    belong to, no order older than an order after it. *)
Theorem getOrders_zero_userId (jo : JoinOrder) (limit offset : option nat) (db : Db) :
  DatabaseStorage.getOrders jo (Some 0) limit offset db
  = DatabaseStorage.getOrders jo None limit offset db
  /\ map OrderWithItems.order
       (result (DatabaseStorage.getOrders jo (Some 0) limit offset) db)
     = Sql.limit_offset (JS.default limit 20%nat) (JS.default offset 0%nat)
         (Sql.orderBy_desc Order.createdAt (orders db))
  /\ Permutation (orders db) (Sql.orderBy_desc Order.createdAt (orders db))
  /\ newest_first Order.createdAt (Sql.orderBy_desc Order.createdAt (orders db)).
Proof.
  split; [reflexivity|]. split; [|split].
  - apply (getOrders_orders jo (Some 0)).
  - apply orderBy_desc_Permutation.
  - apply orderBy_desc_newest_first.
Qed.

Lemma getOrders_zero_userId_witness :
  map OrderWithItems.order
      (result (DatabaseStorage.getOrders last_first (Some 0) None None) shop)
  = [order2; order1]
  /\ Sql.where_ (fun o => Order.userId o =? 0) (orders shop) = [].
Proof.
  split; [|reflexivity].
  rewrite (proj1 (proj2 (getOrders_zero_userId last_first None None shop))).
  reflexivity.
Defined.


(** ** The dashboard figures *)

(** C5 against the code: [getOrderStats] returns each of its three counts
    as the text the database hands over for [count( * )], never as a
    number: the text is not empty, so the [|| 0] of the source is never
    taken, and without orders [totalOrders] is the string ["0"] where the
    declared type and the claim have the number 0.  The rest holds: the
    text of each count reads as the number of orders, of products and of
    users whose role is ["user"]; [totalRevenue] is ["0"] without orders
    and in every state a decimal string that reads as the sum of all order
    totals; the database is left as it was. *)
Theorem getOrderStats_counts_are_text (db : Db) :
  let stats := result DatabaseStorage.getOrderStats db in
  (Stats.totalOrders stats = JS.str (int8_text (Z.of_nat (List.length (orders db))))
   /\ Stats.totalProducts stats
      = JS.str (int8_text (Z.of_nat (List.length (products db))))
   /\ Stats.totalCustomers stats
      = JS.str (int8_text (Z.of_nat (List.length (customers db)))))
  /\ (forall n, Stats.totalOrders stats <> JS.num n)
  /\ (orders db = [] ->
      Stats.totalOrders stats = JS.str "0"
      /\ Stats.totalRevenue stats = "0"%string)
  /\ (count_of (Stats.totalOrders stats) = Some (Z.of_nat (List.length (orders db)))
      /\ count_of (Stats.totalProducts stats)
         = Some (Z.of_nat (List.length (products db)))
      /\ count_of (Stats.totalCustomers stats)
         = Some (Z.of_nat (List.length (customers db))))
  /\ Decimal.of_string (Stats.totalRevenue stats) = Some (revenue db)
  /\ (orders db <> [] ->
      Stats.totalRevenue stats = Decimal.to_string (revenue db))
  /\ after DatabaseStorage.getOrderStats db = db.
Proof.
  intros stats.
  assert (Hrev : orders db <> [] ->
                 Stats.totalRevenue stats = Decimal.to_string (revenue db)).
  { intros Hsome. unfold stats, result, DatabaseStorage.getOrderStats, bind,
      select_all, ret, revenue.
    cbn [fst snd Stats.totalRevenue]. unfold Sql.sum.
    destruct (orders db) as [|o os]; [contradiction|].
    cbn [option_map JS.or_string]. now rewrite to_string_truthy. }
  assert (Htext :
    Stats.totalOrders stats = JS.str (int8_text (Z.of_nat (List.length (orders db))))
    /\ Stats.totalProducts stats
       = JS.str (int8_text (Z.of_nat (List.length (products db))))
    /\ Stats.totalCustomers stats
       = JS.str (int8_text (Z.of_nat (List.length (customers db))))).
  { unfold stats, result, DatabaseStorage.getOrderStats, bind, select_all, ret.
    cbn [fst snd Stats.totalOrders Stats.totalProducts Stats.totalCustomers].
    rewrite !or_text_int8. repeat split. }
  destruct Htext as (Ho & Hp & Hc).
  split; [auto|]. split; [|split; [|split; [|split; [|split]]]].
  - intros n. rewrite Ho. discriminate.
  - intros Hnone. split.
    + rewrite Ho, Hnone. reflexivity.
    + unfold stats, result, DatabaseStorage.getOrderStats, bind, select_all, ret.
      rewrite Hnone. reflexivity.
  - rewrite Ho, Hp, Hc, !count_of_int8_text. auto.
  - destruct (orders db) as [|o os] eqn:Hos.
    + unfold stats, result, DatabaseStorage.getOrderStats, bind, select_all,
        ret, revenue. rewrite Hos. reflexivity.
    + rewrite Hrev by discriminate. apply of_string_to_string.
  - exact Hrev.
  - reflexivity.
Qed.

Lemma getOrderStats_counts_are_text_witness :
  (Stats.totalOrders (result DatabaseStorage.getOrderStats empty_db) = JS.str "0"
   /\ Stats.totalRevenue (result DatabaseStorage.getOrderStats empty_db)
      = "0"%string)
  /\ Stats.totalOrders (result DatabaseStorage.getOrderStats empty_db) <> JS.num 0
  /\ Stats.totalRevenue (result DatabaseStorage.getOrderStats shop) = "1610.50"%string
  /\ Stats.totalCustomers (result DatabaseStorage.getOrderStats shop) = JS.str "2".
Proof.
  split; [|split; [|split]].
  - exact (proj1 (proj2 (proj2 (getOrderStats_counts_are_text empty_db))) eq_refl).
  - apply (proj1 (proj2 (getOrderStats_counts_are_text empty_db))).
  - rewrite (proj1 (proj2 (proj2 (proj2 (proj2 (proj2
        (getOrderStats_counts_are_text shop))))))).
    + reflexivity.
    + discriminate.
  - rewrite (proj2 (proj2 (proj1 (getOrderStats_counts_are_text shop)))).
    reflexivity.
Defined.

(** * The rest of the storage layer *)

(** ** Deletions and joins *)

Section MoreSqlFacts.
Context {A : Type}.
Implicit Types (cond sel : A -> bool) (rows : list A).

Lemma delete_In cond rows r :
  In r (Sql.delete cond rows) <-> In r rows /\ cond r = false.
Proof.
  unfold Sql.delete. rewrite filter_In.
  destruct (cond r); simpl; intuition congruence.
Qed.

Lemma delete_untouched cond rows :
  (forall r, In r rows -> cond r = false) -> Sql.delete cond rows = rows.
Proof.
  unfold Sql.delete. induction rows as [|r rows IH]; simpl; intros H; [reflexivity|].
  rewrite (H r) by now left. simpl. f_equal. apply IH.
  intros x Hx. apply H. now right.
Qed.

Lemma delete_delete cond rows :
  Sql.delete cond (Sql.delete cond rows) = Sql.delete cond rows.
Proof.
  apply delete_untouched. intros r Hr. now apply delete_In in Hr.
Qed.

Lemma where_delete_same cond rows :
  Sql.where_ cond (Sql.delete cond rows) = [].
Proof.
  apply where_nil_iff. intros r Hr. now apply delete_In in Hr.
Qed.

(** A selection commutes with a deletion. *)
Lemma where_delete sel cond rows :
  Sql.where_ sel (Sql.delete cond rows) = Sql.delete cond (Sql.where_ sel rows).
Proof.
  unfold Sql.where_, Sql.delete.
  induction rows as [|r rows IH]; simpl; [reflexivity|].
  destruct (cond r) eqn:Ec, (sel r) eqn:Es; simpl;
    rewrite ?Ec, ?Es; simpl; rewrite ?IH; reflexivity.
Qed.

Lemma delete_length cond rows :
  (List.length (Sql.delete cond rows) <= List.length rows)%nat.
Proof. apply filter_length_le. Qed.

Lemma where_where sel cond rows :
  Sql.where_ sel (Sql.where_ cond rows)
  = Sql.where_ (fun r => cond r && sel r) rows.
Proof.
  unfold Sql.where_. induction rows as [|r rows IH]; simpl; [reflexivity|].
  destruct (cond r); simpl; [|exact IH].
  destruct (sel r); simpl; now rewrite IH.
Qed.

End MoreSqlFacts.

Section JoinFacts.
Context {A B : Type}.
Implicit Types (on : A -> B -> bool) (a : list A) (b : list B).

Lemma leftJoin_In on a b x o :
  In (x, o) (Sql.leftJoin on a b)
  <-> In x a
      /\ match o with
         | Some y => In y b /\ on x y = true
         | None => forall y, In y b -> on x y = false
         end.
Proof.
  unfold Sql.leftJoin. rewrite in_flat_map. split.
  - intros (x' & Hx' & Hin).
    destruct (filter (on x') b) as [|y ys] eqn:Hf.
    + destruct Hin as [E|[]]. inversion E; subst. split; [exact Hx'|].
      apply where_nil_iff. exact Hf.
    + apply in_map_iff in Hin. destruct Hin as (y' & E & Hy').
      inversion E; subst. split; [exact Hx'|].
      rewrite <- Hf in Hy'. now apply filter_In in Hy'.
  - intros [Hx Ho]. exists x. split; [exact Hx|].
    destruct o as [y|].
    + assert (Hy : In y (filter (on x) b)) by now apply filter_In.
      destruct (filter (on x) b) as [|y0 ys]; [contradiction|].
      apply in_map_iff. exists y. split; [reflexivity | exact Hy].
    + apply where_nil_iff in Ho. unfold Sql.where_ in Ho. rewrite Ho. now left.
Qed.

(** A condition on the left row can be applied before the join. *)
Lemma where_leftJoin (sel : A -> bool) on a b :
  Sql.where_ (fun row => sel (fst row)) (Sql.leftJoin on a b)
  = Sql.leftJoin on (Sql.where_ sel a) b.
Proof.
  unfold Sql.where_, Sql.leftJoin.
  assert (Hblock : forall x (block : list (A * option B)),
             Forall (fun row => fst row = x) block ->
             filter (fun row => sel (fst row)) block
             = if sel x then block else []).
  { intros x block Hall. induction Hall as [|row block Hrow Hall IHb]; simpl.
    - now destruct (sel x).
    - rewrite Hrow, IHb. now destruct (sel x). }
  induction a as [|x a IH]; [reflexivity|].
  cbn [flat_map filter]. rewrite filter_app, IH, (Hblock x).
  - destruct (sel x); reflexivity.
  - destruct (filter (on x) b) as [|y ys].
    + repeat constructor.
    + apply Forall_forall. intros row Hrow.
      apply in_map_iff in Hrow. destruct Hrow as (y' & <- & _). reflexivity.
Qed.

(** When every left row has at most one partner, the join has one row for
    each left row, in the order of the left table. *)
Lemma leftJoin_at_most_one on a b :
  (forall x, (List.length (filter (on x) b) <= 1)%nat) ->
  Sql.leftJoin on a b = map (fun x => (x, JS.first (filter (on x) b))) a.
Proof.
  intros Hone.
  induction a as [|x a IH]; [reflexivity|].
  change (Sql.leftJoin on (x :: a) b)
    with (match filter (on x) b with
          | [] => [(x, None)]
          | ys => map (fun y => (x, Some y)) ys
          end ++ Sql.leftJoin on a b).
  rewrite IH. specialize (Hone x). cbn [map].
  destruct (filter (on x) b) as [|y [|y' ys]]; simpl in *; try reflexivity. lia.
Qed.

End JoinFacts.

Lemma where_id_at_most_one {A : Type} (id : A -> Z) (rows : list A) (k : Z) :
  NoDup (map id rows) ->
  (List.length (filter (fun r => Z.eqb k (id r)) rows) <= 1)%nat.
Proof.
  induction rows as [|r rows IH]; simpl; intros Hnd; [lia|].
  apply NoDup_cons_iff in Hnd. destruct Hnd as [Hnotin Hnd].
  destruct (Z.eqb_spec k (id r)) as [E|E]; [|now apply IH].
  replace (filter (fun r0 => k =? id r0) rows) with (@nil A); [simpl; lia|].
  symmetry. apply where_nil_iff. intros x Hx. apply Z.eqb_neq. intros E'.
  apply Hnotin. rewrite <- E, E'. now apply in_map.
Qed.

Lemma product_of_filter (pid : Z) (db : Db) :
  JS.first (filter (fun p => pid =? Product.id p) (products db)) = product_of pid db.
Proof.
  unfold product_of, Sql.where_. f_equal. apply filter_ext.
  intros p. apply Z.eqb_sym.
Qed.

(** ** Reading the cart *)

Lemma arrange_nil (jo : JoinOrder) (A : Type) : arrange jo A [] = [].
Proof.
  apply Permutation_nil, Permutation_sym, arrange_Permutation.
Qed.

Lemma arrange_In (jo : JoinOrder) (A : Type) (rows : list A) (x : A) :
  In x (arrange jo A rows) <-> In x rows.
Proof.
  split; apply Permutation_in;
    [|apply Permutation_sym]; apply arrange_Permutation.
Qed.

Lemma getCartItems_formula (jo : JoinOrder) (u : Z) (db : Db) :
  NoDup (map Product.id (products db)) ->
  Permutation
    (result (DatabaseStorage.getCartItems jo u) db)
    (map (fun c => CartItemWithProduct.mk c (product_of (CartItem.productId c) db))
         (cart_of u db)).
Proof.
  intros Hnd.
  unfold DatabaseStorage.getCartItems, result, bind, select_leftJoin_where, ret.
  cbn [fst].
  eapply Permutation_trans; [apply Permutation_map, arrange_Permutation|].
  rewrite (where_leftJoin (fun c => CartItem.userId c =? u)).
  rewrite leftJoin_at_most_one
    by (intros c; apply (where_id_at_most_one Product.id); exact Hnd).
  rewrite map_map. unfold cart_of.
  erewrite map_ext; [apply Permutation_refl|].
  intros c. cbn [fst snd]. now rewrite product_of_filter.
Qed.

(** X1: every row of [getCartItems u] is a cart line of user [u] with a
    product row of the line's product id, or without product when no such
    row exists; when product ids are pairwise different the result holds
    each line of the user exactly once, with its product row or without
    one, in an order that the query does not fix. *)
Theorem getCartItems_rows (jo : JoinOrder) (u : Z) (db : Db) :
  (forall row, In row (result (DatabaseStorage.getCartItems jo u) db) ->
     CartItem.userId (CartItemWithProduct.line row) = u
     /\ In (CartItemWithProduct.line row) (cartItems db)
     /\ match CartItemWithProduct.product row with
        | Some p => In p (products db)
                    /\ Product.id p = CartItem.productId (CartItemWithProduct.line row)
        | None => forall p, In p (products db) ->
                    Product.id p <> CartItem.productId (CartItemWithProduct.line row)
        end)
  /\ (NoDup (map Product.id (products db)) ->
      Permutation
        (result (DatabaseStorage.getCartItems jo u) db)
        (map (fun c => CartItemWithProduct.mk c
                         (product_of (CartItem.productId c) db))
             (cart_of u db))).
Proof.
  split; [|apply getCartItems_formula].
  unfold DatabaseStorage.getCartItems, result, bind, select_leftJoin_where, ret.
  cbn [fst].
  intros row Hrow. apply in_map_iff in Hrow.
  destruct Hrow as ([c o] & <- & Hin). cbn [fst snd CartItemWithProduct.line
    CartItemWithProduct.product].
  apply arrange_In in Hin.
  unfold Sql.where_ in Hin. apply filter_In in Hin. destruct Hin as [Hin Hu].
  cbn [fst] in Hu. apply Z.eqb_eq in Hu.
  apply leftJoin_In in Hin. destruct Hin as [Hc Ho].
  split; [exact Hu|]. split; [exact Hc|].
  destruct o as [p|].
  - destruct Ho as [Hp E]. apply Z.eqb_eq in E. auto.
  - intros p Hp E. specialize (Ho p Hp). apply Z.eqb_neq in Ho. congruence.
Qed.

Lemma getCartItems_rows_witness :
  Permutation
    (result (DatabaseStorage.getCartItems last_first 3) bazaar)
    [CartItemWithProduct.mk (CartItem.mk 3 3 1 (Some 4)) (Some laptop);
     CartItemWithProduct.mk (CartItem.mk 4 3 9 (Some 1)) None].
Proof.
  apply (proj2 (getCartItems_rows last_first 3 bazaar)).
  repeat constructor; simpl; intuition discriminate.
Defined.

(** ** Writing the cart *)

Section MoreUpdateFacts.
Context {A : Type}.
Implicit Types (cond : A -> bool) (f g : A -> A) (rows : list A).

Lemma update_ext cond f g rows :
  (forall r, cond r = true -> f r = g r) ->
  Sql.update cond f rows = Sql.update cond g rows.
Proof.
  intros Hfg. unfold Sql.update. apply map_ext_in. intros r _.
  destruct (cond r) eqn:E; [now apply Hfg | reflexivity].
Qed.

(** Two updates of the same rows, on columns the condition does not read,
    are one update with both assignments. *)
Lemma update_update cond f g rows :
  (forall r, cond (f r) = cond r) ->
  Sql.update cond g (Sql.update cond f rows)
  = Sql.update cond (fun r => g (f r)) rows.
Proof.
  intros Hc. unfold Sql.update. rewrite map_map. apply map_ext. intros r.
  destruct (cond r) eqn:E; [now rewrite Hc, E | now rewrite E].
Qed.

Lemma update_length cond f rows :
  List.length (Sql.update cond f rows) = List.length rows.
Proof. apply length_map. Qed.

Lemma update_map_fixed {K : Type} (key : A -> K) cond f rows :
  (forall r, key (f r) = key r) ->
  map key (Sql.update cond f rows) = map key rows.
Proof.
  intros Hk. unfold Sql.update. rewrite map_map. apply map_ext. intros r.
  now destruct (cond r).
Qed.

End MoreUpdateFacts.

Lemma with_cartItems_same (db : Db) :
  with_cartItems (cartItems db) (cartItems_id_seq db) db = db.
Proof. destruct db; reflexivity. Qed.

Lemma with_categories_same (db : Db) : with_categories (categories db) db = db.
Proof. destruct db; reflexivity. Qed.

(** X2: [updateCartItem id q] writes the quantity [q] as it is, whatever
    its sign and whatever the old quantity, into every cart line with that
    id and returns the line it has written; every other line, every other
    column and every other table stay, and with no line of that id the
    result is [undefined] and the database is as before. *)
Theorem updateCartItem_sets (id q : Z) (db : Db) :
  let res := result (DatabaseStorage.updateCartItem id q) db in
  let db' := after (DatabaseStorage.updateCartItem id q) db in
  Forall2 (fun old new =>
             new = if CartItem.id old =? id
                   then CartItem.mk (CartItem.id old) (CartItem.userId old)
                                    (CartItem.productId old) (Some q)
                   else old)
          (cartItems db) (cartItems db')
  /\ same_but_cart db db'
  /\ cartItems_id_seq db' = cartItems_id_seq db
  /\ ((forall c, In c (cartItems db) -> CartItem.id c <> id) ->
      res = None /\ db' = db)
  /\ (forall c, In c (cartItems db) -> CartItem.id c = id ->
        (forall c', In c' (cartItems db) -> CartItem.id c' = id -> c' = c) ->
        res = Some (CartItem.mk id (CartItem.userId c) (CartItem.productId c)
                                (Some q))).
Proof.
  intros res db'.
  unfold res, db', result, after, DatabaseStorage.updateCartItem, bind,
    update_cartItems, ret.
  cbn [fst snd cartItems with_cartItems cartItems_id_seq].
  split; [|split; [|split; [|split]]].
  - apply update_Forall2.
  - unfold same_but_cart. simpl. tauto.
  - reflexivity.
  - intros Habs.
    assert (Hc : forall c, In c (cartItems db) -> (CartItem.id c =? id) = false).
    { intros c Hc. apply Z.eqb_neq. now apply Habs. }
    rewrite returning_untouched, update_untouched by exact Hc.
    split; [reflexivity | apply with_cartItems_same].
  - intros c Hin Hid Honly. unfold Sql.returning. rewrite first_map.
    change (filter (fun c0 => CartItem.id c0 =? id) (cartItems db))
      with (Sql.where_ (fun c0 => CartItem.id c0 =? id) (cartItems db)).
    rewrite (first_where_key_only CartItem.id Z.eqb Z.eqb_spec _ _ _ Hin Hid Honly).
    simpl. unfold set_quantity. now rewrite Hid.
Qed.

Lemma updateCartItem_sets_witness :
  result (DatabaseStorage.updateCartItem 3 (-2)) bazaar
  = Some (CartItem.mk 3 3 1 (Some (-2)))
  /\ result (DatabaseStorage.updateCartItem 8 1) bazaar = None
  /\ after (DatabaseStorage.updateCartItem 8 1) bazaar = bazaar.
Proof.
  split.
  - apply (proj2 (proj2 (proj2 (proj2 (updateCartItem_sets 3 (-2) bazaar))))
             (CartItem.mk 3 3 1 (Some 4))); [simpl; tauto | reflexivity | each_row].
  - apply (proj1 (proj2 (proj2 (proj2 (updateCartItem_sets 8 1 bazaar))))).
    each_row.
Defined.

(** X3: of two [updateCartItem] calls for one id the second one wins: the
    database is the one the second call alone would leave, where two
    [addToCart] calls add up. *)
Theorem updateCartItem_last_wins (id q1 q2 : Z) (db : Db) :
  after (DatabaseStorage.updateCartItem id q2)
        (after (DatabaseStorage.updateCartItem id q1) db)
  = after (DatabaseStorage.updateCartItem id q2) db.
Proof.
  unfold after, DatabaseStorage.updateCartItem, bind, update_cartItems, ret.
  cbn [snd cartItems with_cartItems cartItems_id_seq].
  rewrite update_update by reflexivity.
  unfold with_cartItems. cbn. reflexivity.
Qed.

Lemma cart_after_delete (cond : CartItem.t -> bool) (db : Db) :
  cartItems (after (delete_cartItems cond) db) = Sql.delete cond (cartItems db).
Proof. reflexivity. Qed.

Lemma delete_cartItems_none (cond : CartItem.t -> bool) (db : Db) :
  (forall c, In c (cartItems db) -> cond c = false) ->
  after (delete_cartItems cond) db = db.
Proof.
  intros H. unfold after, delete_cartItems. cbn [snd].
  rewrite delete_untouched by exact H. apply with_cartItems_same.
Qed.

Lemma delete_cartItems_twice (cond : CartItem.t -> bool) (db : Db) :
  after (delete_cartItems cond) (after (delete_cartItems cond) db)
  = after (delete_cartItems cond) db.
Proof.
  unfold after, delete_cartItems. cbn [snd cartItems with_cartItems cartItems_id_seq].
  rewrite delete_delete. reflexivity.
Qed.

(** X4: [removeFromCart id] deletes the cart lines with that id and no
    other line, whoever they belong to; with no such line the database is
    as before, and a second call changes nothing. *)
Theorem removeFromCart_deletes (id : Z) (db : Db) :
  let db' := after (DatabaseStorage.removeFromCart id) db in
  (forall c, In c (cartItems db') <-> In c (cartItems db) /\ CartItem.id c <> id)
  /\ (forall u, cart_of u db'
                = Sql.delete (fun c => CartItem.id c =? id) (cart_of u db))
  /\ same_but_cart db db'
  /\ ((forall c, In c (cartItems db) -> CartItem.id c <> id) -> db' = db)
  /\ after (DatabaseStorage.removeFromCart id) db' = db'.
Proof.
  intros db'. unfold db', DatabaseStorage.removeFromCart.
  split; [|split; [|split; [|split]]].
  - intros c. rewrite cart_after_delete, delete_In, Z.eqb_neq. reflexivity.
  - intros u. unfold cart_of. rewrite cart_after_delete. apply where_delete.
  - unfold same_but_cart. simpl. tauto.
  - intros Habs. apply delete_cartItems_none.
    intros c Hc. apply Z.eqb_neq. now apply Habs.
  - apply delete_cartItems_twice.
Qed.

Lemma removeFromCart_deletes_witness :
  cartItems (after (DatabaseStorage.removeFromCart 2) bazaar)
  = [CartItem.mk 1 2 5 (Some 2); CartItem.mk 3 3 1 (Some 4);
     CartItem.mk 4 3 9 (Some 1)]
  /\ after (DatabaseStorage.removeFromCart 7) bazaar = bazaar.
Proof.
  split; [reflexivity|].
  apply (proj1 (proj2 (proj2 (proj2 (removeFromCart_deletes 7 bazaar))))).
  each_row.
Defined.

Lemma getCartItems_of_cart (jo : JoinOrder) (u : Z) (db db' : Db) :
  cart_of u db' = cart_of u db -> products db' = products db ->
  result (DatabaseStorage.getCartItems jo u) db'
  = result (DatabaseStorage.getCartItems jo u) db.
Proof.
  intros Hcart Hprod.
  unfold DatabaseStorage.getCartItems, result, bind, select_leftJoin_where, ret.
  cbn [fst].
  rewrite !(where_leftJoin (fun c => CartItem.userId c =? u)).
  fold (cart_of u db') (cart_of u db). now rewrite Hcart, Hprod.
Qed.

(** X5: after [clearCart u] the cart of [u] is empty, [getCartItems u]
    returns no row, the cart of every other user and what [getCartItems]
    returns for them are as before, and a second call changes nothing. *)
Theorem clearCart_empties (jo : JoinOrder) (u : Z) (db : Db) :
  let db' := after (DatabaseStorage.clearCart u) db in
  cart_of u db' = []
  /\ result (DatabaseStorage.getCartItems jo u) db' = []
  /\ (forall u', u' <> u ->
        cart_of u' db' = cart_of u' db
        /\ result (DatabaseStorage.getCartItems jo u') db'
           = result (DatabaseStorage.getCartItems jo u') db)
  /\ same_but_cart db db'
  /\ after (DatabaseStorage.clearCart u) db' = db'.
Proof.
  intros db'. unfold db', DatabaseStorage.clearCart.
  assert (Hown : cart_of u (after (delete_cartItems
                   (fun c => CartItem.userId c =? u)) db) = []).
  { unfold cart_of. rewrite cart_after_delete. apply where_delete_same. }
  assert (Hother : forall u', u' <> u ->
            cart_of u' (after (delete_cartItems
                         (fun c => CartItem.userId c =? u)) db) = cart_of u' db).
  { intros u' Hu'. unfold cart_of. rewrite cart_after_delete, where_delete.
    apply delete_untouched. intros c Hc.
    unfold Sql.where_ in Hc. apply filter_In in Hc. destruct Hc as [_ Hc].
    apply Z.eqb_eq in Hc. apply Z.eqb_neq. congruence. }
  split; [exact Hown|]. split; [|split; [|split]].
  - unfold DatabaseStorage.getCartItems, result, bind, select_leftJoin_where, ret.
    cbn [fst]. rewrite (where_leftJoin (fun c => CartItem.userId c =? u)).
    fold (cart_of u (after (delete_cartItems (fun c => CartItem.userId c =? u)) db)).
    rewrite Hown. cbn [Sql.leftJoin flat_map]. now rewrite arrange_nil.
  - intros u' Hu'. split; [now apply Hother|].
    apply getCartItems_of_cart; [now apply Hother | reflexivity].
  - unfold same_but_cart. simpl. tauto.
  - apply delete_cartItems_twice.
Qed.

Lemma clearCart_empties_witness :
  result (DatabaseStorage.getCartItems left_first 3)
         (after (DatabaseStorage.clearCart 2) bazaar)
  = result (DatabaseStorage.getCartItems left_first 3) bazaar
  /\ cartItems (after (DatabaseStorage.clearCart 2) bazaar)
     = [CartItem.mk 3 3 1 (Some 4); CartItem.mk 4 3 9 (Some 1)].
Proof.
  split; [|reflexivity].
  apply (proj1 (proj2 (proj2 (clearCart_empties left_first 2 bazaar))) 3).
  discriminate.
Defined.

Lemma NoDup_map_eq {A B : Type} (f : A -> B) (l : list A) (a b : A) :
  NoDup (map f l) -> In a l -> In b l -> f a = f b -> a = b.
Proof.
  induction l as [|x l IH]; simpl; intros Hnd Ha Hb E; [contradiction|].
  apply NoDup_cons_iff in Hnd. destruct Hnd as [Hx Hnd].
  destruct Ha as [<-|Ha], Hb as [<-|Hb]; auto.
  - exfalso. apply Hx. rewrite E. now apply in_map.
  - exfalso. apply Hx. rewrite <- E. now apply in_map.
Qed.

Lemma leftJoin_fst_In {A B : Type} (on : A -> B -> bool) (a : list A)
    (b : list B) (x : A) :
  In x (map fst (Sql.leftJoin on a b)) <-> In x a.
Proof.
  rewrite in_map_iff. split.
  - intros ([x' o] & <- & Hin). now apply leftJoin_In in Hin.
  - intros Hx. destruct (filter (on x) b) as [|y ys] eqn:Hf.
    + exists (x, None). split; [reflexivity|].
      apply leftJoin_In. split; [exact Hx|]. now apply where_nil_iff.
    + exists (x, Some y). split; [reflexivity|].
      apply leftJoin_In. split; [exact Hx|].
      assert (Hy : In y (filter (on x) b)) by (rewrite Hf; now left).
      now apply filter_In in Hy.
Qed.

(** The lines that [getCartItems u] returns are the cart lines of [u]. *)
Lemma getCartItems_lines (jo : JoinOrder) (u : Z) (db : Db) (c : CartItem.t) :
  In c (map CartItemWithProduct.line (result (DatabaseStorage.getCartItems jo u) db))
  <-> In c (cart_of u db).
Proof.
  unfold DatabaseStorage.getCartItems, result, bind, select_leftJoin_where, ret.
  cbn [fst]. rewrite map_map. cbn [CartItemWithProduct.line].
  rewrite (where_leftJoin (fun c => CartItem.userId c =? u)).
  change (map (fun x : CartItem.t * option Product.t => fst x))
    with (@map (CartItem.t * option Product.t) _ fst).
  rewrite <- (leftJoin_fst_In
                (fun (c0 : CartItem.t) (p : Product.t) =>
                   CartItem.productId c0 =? Product.id p)
                (cart_of u db) (products db) c).
  rewrite !in_map_iff.
  split; intros (x & E & Hx); exists x; (split; [exact E|]);
    apply (arrange_In jo); exact Hx.
Qed.

Lemma remove_each (ids : list Z) (db : Db) :
  fold_left (fun d id => after (DatabaseStorage.removeFromCart id) d) ids db
  = with_cartItems
      (filter (fun c => negb (existsb (Z.eqb (CartItem.id c)) ids)) (cartItems db))
      (cartItems_id_seq db) db.
Proof.
  revert db. induction ids as [|id ids IH]; intros db; simpl.
  - rewrite filter_true by reflexivity. symmetry. apply with_cartItems_same.
  - rewrite IH. unfold after, DatabaseStorage.removeFromCart, delete_cartItems.
    cbn [snd cartItems with_cartItems cartItems_id_seq].
    unfold with_cartItems. cbn. f_equal.
    unfold Sql.delete.
    rewrite (where_where (fun c => negb (existsb (Z.eqb (CartItem.id c)) ids))
               (fun c => negb (CartItem.id c =? id))).
    apply filter_ext. intros c. cbn [existsb]. now rewrite negb_orb.
Qed.

(** X6: removing the lines that [getCartItems u] returns one by one with
    [removeFromCart], as the client's [clearCart] does, leaves the
    database that the server's [clearCart u] leaves, when the ids of the
    cart lines are pairwise different. *)
Theorem remove_each_is_clearCart (jo : JoinOrder) (u : Z) (db : Db) :
  NoDup (map CartItem.id (cartItems db)) ->
  fold_left
    (fun d item =>
       after (DatabaseStorage.removeFromCart
                (CartItem.id (CartItemWithProduct.line item))) d)
    (result (DatabaseStorage.getCartItems jo u) db) db
  = after (DatabaseStorage.clearCart u) db.
Proof.
  intros Hnd.
  set (items := result (DatabaseStorage.getCartItems jo u) db).
  assert (Hfold : forall l d,
    fold_left (fun d item =>
                 after (DatabaseStorage.removeFromCart
                          (CartItem.id (CartItemWithProduct.line item))) d) l d
    = fold_left (fun d id => after (DatabaseStorage.removeFromCart id) d)
        (map (fun item => CartItem.id (CartItemWithProduct.line item)) l) d).
  { induction l as [|item l IH]; intros d; simpl; [reflexivity | apply IH]. }
  rewrite Hfold, remove_each.
  unfold after, DatabaseStorage.clearCart, delete_cartItems. cbn [snd].
  f_equal. unfold Sql.delete. apply filter_ext_in. intros c Hc. f_equal.
  destruct (Z.eqb_spec (CartItem.userId c) u) as [Hu|Hu].
  - apply existsb_exists. exists (CartItem.id c). split; [|apply Z.eqb_refl].
    apply in_map_iff.
    assert (Hline : In c (map CartItemWithProduct.line items)).
    { apply (getCartItems_lines jo). unfold cart_of, Sql.where_.
      apply filter_In. split; [exact Hc | now apply Z.eqb_eq]. }
    apply in_map_iff in Hline. destruct Hline as (item & E & Hitem).
    exists item. split; [now rewrite E | exact Hitem].
  - apply Bool.not_true_is_false. intros Hex.
    apply existsb_exists in Hex. destruct Hex as (id & Hid & E).
    apply Z.eqb_eq in E. apply in_map_iff in Hid.
    destruct Hid as (item & Eid & Hitem).
    assert (Hline : In (CartItemWithProduct.line item) (cart_of u db)).
    { apply (getCartItems_lines jo). now apply in_map. }
    unfold cart_of, Sql.where_ in Hline. apply filter_In in Hline.
    destruct Hline as [Hin Hu']. apply Z.eqb_eq in Hu'.
    assert (c = CartItemWithProduct.line item).
    { apply (NoDup_map_eq CartItem.id (cartItems db)); auto. congruence. }
    subst c. contradiction.
Qed.

Lemma remove_each_is_clearCart_witness :
  fold_left
    (fun d item =>
       after (DatabaseStorage.removeFromCart
                (CartItem.id (CartItemWithProduct.line item))) d)
    (result (DatabaseStorage.getCartItems last_first 3) bazaar) bazaar
  = after (DatabaseStorage.clearCart 3) bazaar.
Proof.
  apply remove_each_is_clearCart.
  repeat constructor; simpl; intuition discriminate.
Defined.

(** ** What the cart methods keep *)

Lemma cart_lines_after_add (u p : Z) (q : option Z) (db : Db) (u' p' : Z) :
  (List.length (cart_lines u' p' (after (DatabaseStorage.addToCart
                                           (InsertCartItem.mk u p q)) db))
   <= Nat.max 1 (List.length (cart_lines u' p' db)))%nat.
Proof.
  destruct (cart_lines u p db) as [|e rest] eqn:Hl.
  - unfold after. rewrite addToCart_absent by exact Hl.
    unfold cart_lines. cbn [snd cartItems with_cartItems].
    rewrite where_app, length_app.
    cbn [Sql.where_ filter CartItem.userId CartItem.productId].
    destruct (Z.eqb_spec u u') as [->|]; [|cbn [andb List.length]; lia].
    destruct (Z.eqb_spec p p') as [->|]; [|cbn [andb List.length]; lia].
    fold (cart_lines u' p' db). rewrite Hl. cbn [andb List.length]. lia.
  - unfold after. rewrite (addToCart_present _ _ _ _ _ _ Hl).
    unfold cart_lines. cbn [snd cartItems with_cartItems].
    rewrite where_update by reflexivity. rewrite update_length. lia.
Qed.

Lemma one_line_per_pair_step (call : CartCall) (db : Db) :
  one_line_per_pair db -> one_line_per_pair (run_cart_call call db).
Proof.
  intros Hinv u' p'. specialize (Hinv u' p').
  destruct call as [[u p q]|id q|id|u]; cbn [run_cart_call].
  - pose proof (cart_lines_after_add u p q db u' p'). lia.
  - unfold cart_lines, after, DatabaseStorage.updateCartItem, bind,
      update_cartItems, ret. cbn [snd cartItems with_cartItems].
    rewrite where_update by reflexivity. now rewrite update_length.
  - unfold cart_lines, DatabaseStorage.removeFromCart.
    rewrite cart_after_delete, where_delete.
    eapply Nat.le_trans; [apply delete_length | exact Hinv].
  - unfold cart_lines, DatabaseStorage.clearCart.
    rewrite cart_after_delete, where_delete.
    eapply Nat.le_trans; [apply delete_length | exact Hinv].
Qed.

(** X7: a cart with at most one line for every (user, product) pair has
    at most one line for every pair after any sequence of [addToCart],
    [updateCartItem], [removeFromCart] and [clearCart] calls. *)
Theorem cart_calls_keep_one_line (calls : list CartCall) (db : Db) :
  one_line_per_pair db -> one_line_per_pair (run_cart_calls calls db).
Proof.
  unfold run_cart_calls. revert db.
  induction calls as [|call calls IH]; intros db Hinv; simpl; [exact Hinv|].
  apply IH. now apply one_line_per_pair_step.
Qed.

Lemma cart_calls_keep_one_line_witness :
  one_line_per_pair
    (run_cart_calls
       [Call_addToCart (InsertCartItem.mk 1 5 (Some 2));
        Call_addToCart (InsertCartItem.mk 1 7 None);
        Call_addToCart (InsertCartItem.mk 1 5 (Some 3));
        Call_updateCartItem 2 9;
        Call_removeFromCart 1;
        Call_addToCart (InsertCartItem.mk 1 5 (Some 1))]
       empty_db).
Proof.
  apply cart_calls_keep_one_line. intros u p. simpl. lia.
Defined.

Lemma NoDup_map_filter {A B : Type} (f : A -> B) (g : A -> bool) (l : list A) :
  NoDup (map f l) -> NoDup (map f (filter g l)).
Proof.
  induction l as [|x l IH]; simpl; intros Hnd; [constructor|].
  apply NoDup_cons_iff in Hnd. destruct Hnd as [Hx Hnd].
  destruct (g x); simpl; [|now apply IH].
  constructor; [|now apply IH].
  intros Hin. apply Hx. apply in_map_iff in Hin.
  destruct Hin as (y & E & Hy). apply filter_In in Hy.
  apply in_map_iff. exists y. tauto.
Qed.

Lemma Forall_filter {A : Type} (P : A -> Prop) (g : A -> bool) (l : list A) :
  Forall P l -> Forall P (filter g l).
Proof.
  rewrite !Forall_forall. intros H x Hx. apply filter_In in Hx. now apply H.
Qed.

Lemma cart_ids_fresh_update (cond : CartItem.t -> bool) (q : Z) (db : Db) :
  cart_ids_fresh db ->
  cart_ids_fresh (with_cartItems (Sql.update cond (set_quantity q) (cartItems db))
                                 (cartItems_id_seq db) db).
Proof.
  intros [Hnd Hall]. unfold cart_ids_fresh. cbn [cartItems with_cartItems
    cartItems_id_seq].
  split.
  - now rewrite (update_map_fixed CartItem.id) by reflexivity.
  - apply (proj1 (Forall_map CartItem.id (fun i => i < cartItems_id_seq db) _)).
    rewrite (update_map_fixed CartItem.id) by reflexivity.
    now apply (proj2 (Forall_map CartItem.id (fun i => i < cartItems_id_seq db) _)).
Qed.

Lemma cart_ids_fresh_delete (cond : CartItem.t -> bool) (db : Db) :
  cart_ids_fresh db -> cart_ids_fresh (after (delete_cartItems cond) db).
Proof.
  intros [Hnd Hall]. unfold cart_ids_fresh.
  rewrite cart_after_delete. unfold Sql.delete. split.
  - now apply NoDup_map_filter.
  - now apply Forall_filter.
Qed.

Lemma cart_ids_fresh_step (call : CartCall) (db : Db) :
  cart_ids_fresh db -> cart_ids_fresh (run_cart_call call db).
Proof.
  intros Hinv.
  destruct call as [[u p q]|id q|id|u]; cbn [run_cart_call].
  - destruct (cart_lines u p db) as [|e rest] eqn:Hl.
    + unfold after. rewrite addToCart_absent by exact Hl.
      destruct Hinv as [Hnd Hall]. unfold cart_ids_fresh.
      cbn [snd cartItems with_cartItems cartItems_id_seq]. split.
      * rewrite map_app. cbn [map CartItem.id].
        apply NoDup_app; [exact Hnd | repeat constructor; intros [] |].
        intros i Hin [<-|[]]. apply in_map_iff in Hin.
        destruct Hin as (c & E & Hc).
        rewrite Forall_forall in Hall. specialize (Hall c Hc). lia.
      * apply Forall_app. split.
        -- eapply Forall_impl; [|exact Hall]. intros c Hc. cbn beta in Hc. lia.
        -- constructor; [cbn; lia | constructor].
    + unfold after. rewrite (addToCart_present _ _ _ _ _ _ Hl). cbn [snd].
      now apply cart_ids_fresh_update.
  - unfold after, DatabaseStorage.updateCartItem, bind, update_cartItems, ret.
    cbn [snd]. now apply cart_ids_fresh_update.
  - now apply cart_ids_fresh_delete.
  - now apply cart_ids_fresh_delete.
Qed.

(** X8: when the ids of the cart lines are pairwise different and below
    the next value of the sequence, they still are after any sequence of
    [addToCart], [updateCartItem], [removeFromCart] and [clearCart] calls:
    an inserted line never takes the id of a line that is there. *)
Theorem cart_calls_keep_ids_fresh (calls : list CartCall) (db : Db) :
  cart_ids_fresh db -> cart_ids_fresh (run_cart_calls calls db).
Proof.
  unfold run_cart_calls. revert db.
  induction calls as [|call calls IH]; intros db Hinv; simpl; [exact Hinv|].
  apply IH. now apply cart_ids_fresh_step.
Qed.

Lemma cart_calls_keep_ids_fresh_witness :
  cart_ids_fresh
    (run_cart_calls
       [Call_addToCart (InsertCartItem.mk 3 2 (Some 1));
        Call_removeFromCart 4;
        Call_addToCart (InsertCartItem.mk 2 1 (Some 1));
        Call_clearCart 2;
        Call_addToCart (InsertCartItem.mk 2 1 None)]
       bazaar).
Proof.
  apply cart_calls_keep_ids_fresh. split.
  - repeat constructor; simpl; intuition discriminate.
  - repeat constructor.
Defined.

Lemma cart_lines_In (u p : Z) (db : Db) (c : CartItem.t) :
  In c (cart_lines u p db)
  <-> In c (cartItems db) /\ CartItem.userId c = u /\ CartItem.productId c = p.
Proof.
  unfold cart_lines, Sql.where_. rewrite filter_In, andb_true_iff, !Z.eqb_eq.
  reflexivity.
Qed.

(** X9: when the ids of the cart lines are pairwise different,
    [addToCart] for one (user, product) pair leaves the lines of every
    other pair as they were: it writes to the line of its own pair only. *)
Theorem addToCart_other_pairs (cartItem : InsertCartItem.t) (db : Db) (u p : Z) :
  NoDup (map CartItem.id (cartItems db)) ->
  (u, p) <> (InsertCartItem.userId cartItem, InsertCartItem.productId cartItem) ->
  cart_lines u p (after (DatabaseStorage.addToCart cartItem) db)
  = cart_lines u p db.
Proof.
  destruct cartItem as [u0 p0 q]. cbn [InsertCartItem.userId InsertCartItem.productId].
  intros Hnd Hother.
  destruct (cart_lines u0 p0 db) as [|e rest] eqn:Hl.
  - unfold after. rewrite addToCart_absent by exact Hl.
    unfold cart_lines. cbn [snd cartItems with_cartItems].
    rewrite where_app.
    cbn [Sql.where_ filter CartItem.userId CartItem.productId].
    destruct (Z.eqb_spec u0 u) as [->|]; [|cbn [andb]; apply app_nil_r].
    destruct (Z.eqb_spec p0 p) as [->|]; [|cbn [andb]; apply app_nil_r].
    now contradiction Hother.
  - unfold after. rewrite (addToCart_present _ _ _ _ _ _ Hl).
    unfold cart_lines. cbn [snd cartItems with_cartItems].
    rewrite where_update by reflexivity. fold (cart_lines u p db).
    apply update_untouched. intros c Hc.
    apply Z.eqb_neq. intros Eid.
    assert (He : In e (cart_lines u0 p0 db)) by (rewrite Hl; now left).
    apply cart_lines_In in He. destruct He as (He & Hu0 & Hp0).
    apply cart_lines_In in Hc. destruct Hc as (Hc & Hu & Hp).
    assert (c = e) by (apply (NoDup_map_eq CartItem.id (cartItems db)); auto).
    subst c. apply Hother. congruence.
Qed.

Lemma addToCart_other_pairs_witness :
  cart_lines 3 1 (after (DatabaseStorage.addToCart (InsertCartItem.mk 2 1 (Some 6)))
                        bazaar)
  = [CartItem.mk 3 3 1 (Some 4)].
Proof.
  rewrite addToCart_other_pairs.
  - reflexivity.
  - repeat constructor; simpl; intuition discriminate.
  - discriminate.
Defined.

(** X10: after [addToCart] for a pair that had no line, [getCartItems] of
    that user returns the rows it returned before and the new line, in an
    order that the query does not fix; the new line has the next id of
    the sequence, the quantity given (the column default when none is
    given) and the product row it points to, when product ids are pairwise
    different. *)
Theorem addToCart_then_getCartItems (jo : JoinOrder) (u p : Z) (q : option Z) (db : Db) :
  cart_lines u p db = [] ->
  NoDup (map Product.id (products db)) ->
  Permutation
    (result (DatabaseStorage.getCartItems jo u)
            (after (DatabaseStorage.addToCart (InsertCartItem.mk u p q)) db))
    (CartItemWithProduct.mk
       (CartItem.mk (cartItems_id_seq db) u p
          (match q with Some n => Some n | None => cartItems_quantity_default end))
       (product_of p db)
     :: result (DatabaseStorage.getCartItems jo u) db).
Proof.
  intros Hl Hnd.
  eapply Permutation_trans.
  { apply getCartItems_formula.
    unfold after. rewrite addToCart_absent by exact Hl. exact Hnd. }
  eapply Permutation_trans;
    [|apply perm_skip, Permutation_sym, getCartItems_formula; exact Hnd].
  unfold after. rewrite addToCart_absent by exact Hl.
  unfold cart_of, product_of. cbn [snd cartItems products with_cartItems].
  rewrite where_app, map_app.
  cbn [Sql.where_ filter CartItem.userId map]. rewrite Z.eqb_refl.
  cbn [map CartItem.productId].
  apply Permutation_sym, Permutation_cons_append.
Qed.

Lemma addToCart_then_getCartItems_witness :
  Permutation
    (result (DatabaseStorage.getCartItems last_first 3)
            (after (DatabaseStorage.addToCart (InsertCartItem.mk 3 4 None)) bazaar))
    (CartItemWithProduct.mk (CartItem.mk 5 3 4 (Some 1)) (Some tablet)
     :: result (DatabaseStorage.getCartItems last_first 3) bazaar).
Proof.
  apply (addToCart_then_getCartItems last_first 3 4 None bazaar).
  - reflexivity.
  - repeat constructor; simpl; intuition discriminate.
Defined.

(** ** Orders with their items *)

Lemma order_items_of_formula (jo : JoinOrder) (oid : Z) (db : Db) :
  NoDup (map Product.id (products db)) ->
  Permutation
    (result (DatabaseStorage.order_items_of jo oid) db)
    (map (fun i => OrderItemWithProduct.mk i (product_of (OrderItem.productId i) db))
         (items_of oid db)).
Proof.
  intros Hnd.
  unfold DatabaseStorage.order_items_of, result, bind, select_leftJoin_where, ret.
  cbn [fst].
  eapply Permutation_trans; [apply Permutation_map, arrange_Permutation|].
  rewrite (where_leftJoin (fun i => OrderItem.orderId i =? oid)).
  rewrite leftJoin_at_most_one
    by (intros i; apply (where_id_at_most_one Product.id); exact Hnd).
  rewrite map_map. unfold items_of.
  erewrite map_ext; [apply Permutation_refl|].
  intros i. cbn [fst snd]. now rewrite product_of_filter.
Qed.

Lemma order_items_of_In (jo : JoinOrder) (oid : Z) (db : Db) (it : OrderItemWithProduct.t) :
  In it (result (DatabaseStorage.order_items_of jo oid) db) ->
  OrderItem.orderId (OrderItemWithProduct.item it) = oid
  /\ In (OrderItemWithProduct.item it) (orderItems db).
Proof.
  unfold DatabaseStorage.order_items_of, result, bind, select_leftJoin_where, ret.
  cbn [fst]. intros Hin. apply in_map_iff in Hin.
  destruct Hin as ([i o] & <- & Hin). cbn [OrderItemWithProduct.item fst].
  apply arrange_In in Hin.
  unfold Sql.where_ in Hin. apply filter_In in Hin. destruct Hin as [Hin Ho].
  cbn [fst] in Ho. apply Z.eqb_eq in Ho.
  apply leftJoin_In in Hin. tauto.
Qed.

Lemma getOrderById_only (jo : JoinOrder) (id : Z) (db : Db) (o : Order.t) :
  In o (orders db) -> Order.id o = id ->
  (forall o', In o' (orders db) -> Order.id o' = id -> o' = o) ->
  DatabaseStorage.getOrderById jo id db
  = (Some (OrderWithItems.mk o (result (DatabaseStorage.order_items_of jo id) db)), db).
Proof.
  intros Hin Hid Honly.
  unfold DatabaseStorage.getOrderById, bind, select_where.
  rewrite (first_where_key_only Order.id Z.eqb Z.eqb_spec _ _ _ Hin Hid Honly).
  reflexivity.
Qed.

(** X11: [getOrderById id] returns [undefined] when no order has the id;
    when exactly one order has it, it returns that order with items that
    all belong to it, and, with pairwise different product ids, each item
    of the order exactly once, with the product row it points to or
    without one, in an order that the query does not fix. *)
Theorem getOrderById_found (jo : JoinOrder) (id : Z) (db : Db) :
  ((forall o, In o (orders db) -> Order.id o <> id) ->
   DatabaseStorage.getOrderById jo id db = (None, db))
  /\ (forall o, In o (orders db) -> Order.id o = id ->
        (forall o', In o' (orders db) -> Order.id o' = id -> o' = o) ->
        exists items,
          DatabaseStorage.getOrderById jo id db
          = (Some (OrderWithItems.mk o items), db)
          /\ (forall it, In it items ->
                OrderItem.orderId (OrderItemWithProduct.item it) = id
                /\ In (OrderItemWithProduct.item it) (orderItems db))
          /\ (NoDup (map Product.id (products db)) ->
              Permutation items
                (map (fun i => OrderItemWithProduct.mk i
                                 (product_of (OrderItem.productId i) db))
                     (items_of id db)))).
Proof.
  split.
  - intros Habs. unfold DatabaseStorage.getOrderById, bind, select_where.
    rewrite (where_key_absent Order.id Z.eqb Z.eqb_spec) by exact Habs.
    reflexivity.
  - intros o Hin Hid Honly.
    exists (result (DatabaseStorage.order_items_of jo id) db).
    split; [now apply getOrderById_only|]. split.
    + intros it. apply order_items_of_In.
    + apply order_items_of_formula.
Qed.

Lemma getOrderById_found_witness :
  DatabaseStorage.getOrderById last_first 7 shop = (None, shop)
  /\ (exists items,
        DatabaseStorage.getOrderById last_first 1 shop
        = (Some (OrderWithItems.mk order1 items), shop)
        /\ Permutation items
             [OrderItemWithProduct.mk item1 (Some laptop);
              OrderItemWithProduct.mk item2 (Some novel)]).
Proof.
  split.
  - apply (proj1 (getOrderById_found last_first 7 shop)). each_row.
  - destruct (proj2 (getOrderById_found last_first 1 shop) order1)
      as (items & Hget & _ & Hitems).
    + simpl. tauto.
    + reflexivity.
    + each_row.
    + exists items. split; [exact Hget|]. apply Hitems.
      repeat constructor; simpl; intuition discriminate.
Defined.

Lemma getOrders_formula (jo : JoinOrder) (userId : option Z) (limit offset : option nat) (db : Db) :
  result (DatabaseStorage.getOrders jo userId limit offset) db
  = map (fun o => OrderWithItems.mk o
                    (result (DatabaseStorage.order_items_of jo (Order.id o)) db))
        (Sql.limit_offset (JS.default limit 20%nat) (JS.default offset 0%nat)
           (Sql.orderBy_desc Order.createdAt
              (match JS.when_number userId with
               | Some u => Sql.where_ (fun o => Order.userId o =? u) (orders db)
               | None => orders db
               end))).
Proof.
  unfold DatabaseStorage.getOrders, result, bind.
  destruct (JS.when_number userId); unfold select_all;
    rewrite mapM_reads by reflexivity; reflexivity.
Qed.

(** X12: every element of a [getOrders] result is what [getOrderById]
    returns for the id of its order, when order ids are pairwise
    different: the list view and the single view of an order agree. *)
Theorem getOrders_as_getOrderById (jo : JoinOrder) (userId : option Z) (limit offset : option nat)
    (db : Db) (ow : OrderWithItems.t) :
  NoDup (map Order.id (orders db)) ->
  In ow (result (DatabaseStorage.getOrders jo userId limit offset) db) ->
  DatabaseStorage.getOrderById jo (Order.id (OrderWithItems.order ow)) db
  = (Some ow, db).
Proof.
  intros Hnd Hin. rewrite getOrders_formula in Hin.
  apply in_map_iff in Hin. destruct Hin as (o & <- & Ho).
  cbn [OrderWithItems.order].
  apply limit_offset_In in Ho. apply orderBy_desc_In in Ho.
  assert (Hin : In o (orders db)).
  { destruct (JS.when_number userId); [|exact Ho].
    unfold Sql.where_ in Ho. now apply filter_In in Ho. }
  apply getOrderById_only; [exact Hin | reflexivity |].
  intros o' Ho' E. now apply (NoDup_map_eq Order.id (orders db)).
Qed.

Lemma getOrders_as_getOrderById_witness :
  DatabaseStorage.getOrderById last_first 2 shop
  = (Some (OrderWithItems.mk order2 [OrderItemWithProduct.mk item3 (Some phone)]),
     shop).
Proof.
  apply (getOrders_as_getOrderById last_first (Some 3) None None shop
           (OrderWithItems.mk order2 [OrderItemWithProduct.mk item3 (Some phone)])).
  - repeat constructor; simpl; intuition discriminate.
  - simpl. tauto.
Defined.

(** X13: [getOrders] with a [userId] other than 0 returns orders of that
    user only: the page [limit], [offset] (20 and 0 by default) of the
    user's orders, no order older than an order after it. *)
Theorem getOrders_of_user (jo : JoinOrder) (u : Z) (limit offset : option nat) (db : Db) :
  u <> 0 ->
  let res := result (DatabaseStorage.getOrders jo (Some u) limit offset) db in
  map OrderWithItems.order res
  = Sql.limit_offset (JS.default limit 20%nat) (JS.default offset 0%nat)
      (Sql.orderBy_desc Order.createdAt
         (Sql.where_ (fun o => Order.userId o =? u) (orders db)))
  /\ Forall (fun ow => Order.userId (OrderWithItems.order ow) = u
                       /\ In (OrderWithItems.order ow) (orders db)) res
  /\ (List.length res <= JS.default limit 20)%nat
  /\ newest_first Order.createdAt (map OrderWithItems.order res).
Proof.
  intros Hu res.
  assert (Hmap : map OrderWithItems.order res
                 = Sql.limit_offset (JS.default limit 20%nat) (JS.default offset 0%nat)
                     (Sql.orderBy_desc Order.createdAt
                        (Sql.where_ (fun o => Order.userId o =? u) (orders db)))).
  { unfold res. rewrite getOrders_orders. unfold JS.when_number, JS.truthy_number.
    destruct (Z.eqb_spec u 0); [contradiction | reflexivity]. }
  split; [exact Hmap|]. split; [|split].
  - apply Forall_forall. intros ow How.
    assert (Ho : In (OrderWithItems.order ow) (map OrderWithItems.order res))
      by now apply in_map.
    rewrite Hmap in Ho. apply limit_offset_In in Ho. apply orderBy_desc_In in Ho.
    unfold Sql.where_ in Ho. apply filter_In in Ho. destruct Ho as [Ho E].
    apply Z.eqb_eq in E. auto.
  - rewrite <- (length_map OrderWithItems.order), Hmap. apply limit_offset_length.
  - rewrite Hmap. apply limit_offset_sorted, orderBy_desc_newest_first.
Qed.

Lemma getOrders_of_user_witness :
  map OrderWithItems.order (result (DatabaseStorage.getOrders last_first (Some 3) None None) shop)
  = [order2].
Proof.
  rewrite (proj1 (getOrders_of_user last_first 3 None None shop ltac:(discriminate))).
  reflexivity.
Defined.

Lemma getOrderById_eq (jo : JoinOrder) (id : Z) (db : Db) :
  DatabaseStorage.getOrderById jo id db
  = (option_map
       (fun o => OrderWithItems.mk o (result (DatabaseStorage.order_items_of jo id) db))
       (JS.first (Sql.where_ (fun o => Order.id o =? id) (orders db))),
     db).
Proof.
  unfold DatabaseStorage.getOrderById, bind, select_where.
  now destruct (JS.first (Sql.where_ (fun o => Order.id o =? id) (orders db))).
Qed.

(** X14: after [createOrderItem] for an order that [getOrderById] finds,
    [getOrderById] returns the same order with the items it had and the
    new item, in an order that the query does not fix; the new item
    carries the next id of the sequence, the price it was created with and
    the product row it points to, when product ids are pairwise
    different. *)
Theorem createOrderItem_then_getOrderById (jo : JoinOrder) (v : InsertOrderItem.t)
    (db : Db) (o : Order.t) (items : list OrderItemWithProduct.t) :
  DatabaseStorage.getOrderById jo (InsertOrderItem.orderId v) db
  = (Some (OrderWithItems.mk o items), db) ->
  NoDup (map Product.id (products db)) ->
  let item := OrderItem.mk (orderItems_id_seq db) (InsertOrderItem.orderId v)
                (InsertOrderItem.productId v) (InsertOrderItem.quantity v)
                (InsertOrderItem.price v) in
  let db' := after (DatabaseStorage.createOrderItem v) db in
  result (DatabaseStorage.createOrderItem v) db = Some item
  /\ exists items',
       DatabaseStorage.getOrderById jo (InsertOrderItem.orderId v) db'
       = (Some (OrderWithItems.mk o items'), db')
       /\ Permutation items'
            (OrderItemWithProduct.mk item
               (product_of (InsertOrderItem.productId v) db) :: items).
Proof.
  intros Hget Hnd item db'. split; [reflexivity|].
  rewrite getOrderById_eq in Hget |- *.
  change (orders db') with (orders db).
  destruct (JS.first (Sql.where_ (fun o0 => Order.id o0 =? InsertOrderItem.orderId v)
                                 (orders db))) as [o0|]; [|discriminate].
  cbn [option_map] in Hget |- *. inversion Hget as [[Ho Hitems]].
  eexists. split; [reflexivity|].
  eapply Permutation_trans; [apply order_items_of_formula; exact Hnd|].
  eapply Permutation_trans;
    [|apply perm_skip, Permutation_sym, order_items_of_formula; exact Hnd].
  unfold items_of, product_of, db', after.
  cbn [snd DatabaseStorage.createOrderItem bind insert_orderItems ret orderItems
       products with_orderItems].
  rewrite where_app, map_app.
  cbn [Sql.where_ filter OrderItem.orderId map]. rewrite Z.eqb_refl.
  cbn [map]. apply Permutation_sym, Permutation_cons_append.
Qed.

Lemma createOrderItem_then_getOrderById_witness :
  exists items',
    DatabaseStorage.getOrderById last_first 2
      (after (DatabaseStorage.createOrderItem (InsertOrderItem.mk 2 5 3 24900)) shop)
    = (Some (OrderWithItems.mk order2 items'),
       after (DatabaseStorage.createOrderItem (InsertOrderItem.mk 2 5 3 24900)) shop)
    /\ Permutation items'
         [OrderItemWithProduct.mk (OrderItem.mk 4 2 5 3 24900) (Some camera);
          OrderItemWithProduct.mk item3 (Some phone)].
Proof.
  apply (proj2 (createOrderItem_then_getOrderById last_first
                  (InsertOrderItem.mk 2 5 3 24900)
                  shop order2 [OrderItemWithProduct.mk item3 (Some phone)]
                  eq_refl
                  ltac:(repeat constructor; simpl; intuition discriminate))).
Defined.

Lemma orderItem_ids_fresh_step (v : InsertOrderItem.t) (db : Db) :
  orderItem_ids_fresh db ->
  orderItem_ids_fresh (after (DatabaseStorage.createOrderItem v) db).
Proof.
  intros [Hnd Hall]. unfold orderItem_ids_fresh, after.
  cbn [snd DatabaseStorage.createOrderItem bind insert_orderItems ret orderItems
       with_orderItems orderItems_id_seq]. split.
  - rewrite map_app. cbn [map OrderItem.id].
    apply NoDup_app; [exact Hnd | repeat constructor; intros [] |].
    intros i Hin [<-|[]]. apply in_map_iff in Hin.
    destruct Hin as (c & E & Hc).
    rewrite Forall_forall in Hall. specialize (Hall c Hc). lia.
  - apply Forall_app. split.
    + eapply Forall_impl; [|exact Hall]. intros c Hc. cbn beta in Hc. lia.
    + constructor; [cbn; lia | constructor].
Qed.

(** X15: [createOrderItem] gives every item an id no other item has: when
    the ids of the order items are pairwise different and below the next
    value of the sequence, they still are after any number of calls, and
    the table is the old table followed by one new row per call. *)
Theorem createOrderItem_ids (vs : list InsertOrderItem.t) (db : Db) :
  orderItem_ids_fresh db ->
  let db' := fold_left (fun d v => after (DatabaseStorage.createOrderItem v) d) vs db in
  orderItem_ids_fresh db'
  /\ exists added,
       orderItems db' = orderItems db ++ added
       /\ map OrderItem.price added = map InsertOrderItem.price vs.
Proof.
  revert db. induction vs as [|v vs IH]; intros db Hinv; cbn [fold_left].
  - split; [exact Hinv|]. exists []. split; [symmetry; apply app_nil_r | reflexivity].
  - specialize (IH _ (orderItem_ids_fresh_step v db Hinv)).
    cbv zeta in IH. destruct IH as (Hfresh & added & Hadd & Hprice).
    split; [exact Hfresh|].
    exists (OrderItem.mk (orderItems_id_seq db) (InsertOrderItem.orderId v)
              (InsertOrderItem.productId v) (InsertOrderItem.quantity v)
              (InsertOrderItem.price v) :: added).
    split.
    + rewrite Hadd. unfold after.
      cbn [snd DatabaseStorage.createOrderItem bind insert_orderItems ret
           orderItems with_orderItems].
      now rewrite <- app_assoc.
    + cbn [map OrderItem.price]. now rewrite Hprice.
Qed.

Lemma createOrderItem_ids_witness :
  orderItem_ids_fresh
    (fold_left (fun d v => after (DatabaseStorage.createOrderItem v) d)
       [InsertOrderItem.mk 2 5 3 24900; InsertOrderItem.mk 1 4 1 39900] shop).
Proof.
  apply (createOrderItem_ids
           [InsertOrderItem.mk 2 5 3 24900; InsertOrderItem.mk 1 4 1 39900] shop).
  split.
  - repeat constructor; simpl; intuition discriminate.
  - repeat constructor.
Defined.

(** ** Deleting and updating products and categories *)

(** X16: after [deleteProduct id] no product row has the id and
    [getProductById id] returns [undefined]; every other product row is
    still there and is found as before, and every other table is as it
    was; with no row of that id the database is as before, and a second
    call changes nothing. *)
Theorem deleteProduct_then_lookup (id : Z) (db : Db) :
  let db' := after (DatabaseStorage.deleteProduct id) db in
  DatabaseStorage.getProductById id db' = (None, db')
  /\ (forall id', id' <> id ->
        result (DatabaseStorage.getProductById id') db'
        = result (DatabaseStorage.getProductById id') db)
  /\ (forall p, In p (products db') <-> In p (products db) /\ Product.id p <> id)
  /\ same_but_products db db'
  /\ ((forall p, In p (products db) -> Product.id p <> id) -> db' = db)
  /\ after (DatabaseStorage.deleteProduct id) db' = db'.
Proof.
  intros db'.
  assert (Hprod : products db' = Sql.delete (fun p => Product.id p =? id) (products db))
    by reflexivity.
  split; [|split; [|split; [|split; [|split]]]].
  - unfold DatabaseStorage.getProductById, bind, select_where.
    rewrite Hprod, where_delete_same. reflexivity.
  - intros id' Hid'.
    unfold DatabaseStorage.getProductById, result, bind, select_where. cbn [fst].
    rewrite Hprod, where_delete.
    rewrite delete_untouched; [reflexivity|]. intros p Hp.
    unfold Sql.where_ in Hp. apply filter_In in Hp. destruct Hp as [_ Hp].
    apply Z.eqb_eq in Hp. apply Z.eqb_neq. congruence.
  - intros p. rewrite Hprod, delete_In, Z.eqb_neq. reflexivity.
  - unfold same_but_products. simpl. tauto.
  - intros Habs. unfold db', after, DatabaseStorage.deleteProduct, delete_products.
    cbn [snd]. rewrite delete_untouched; [apply with_products_same|].
    intros p Hp. apply Z.eqb_neq. now apply Habs.
  - unfold db', after, DatabaseStorage.deleteProduct, delete_products.
    cbn [snd products with_products]. now rewrite delete_delete.
Qed.

Lemma deleteProduct_then_lookup_witness :
  map Product.id (products (after (DatabaseStorage.deleteProduct 3) shop))
  = [1; 2; 4; 5]
  /\ after (DatabaseStorage.deleteProduct 8) shop = shop.
Proof.
  split; [reflexivity|].
  apply (proj1 (proj2 (proj2 (proj2 (proj2 (deleteProduct_then_lookup 8 shop)))))).
  each_row.
Defined.

(** X17: after [deleteCategory id] no category row has the id and
    [getCategoryById id] returns [undefined]; every other category is
    found as before, and the products, those of the deleted category among
    them, are as they were; a second call changes nothing. *)
Theorem deleteCategory_then_lookup (id : Z) (db : Db) :
  let db' := after (DatabaseStorage.deleteCategory id) db in
  DatabaseStorage.getCategoryById id db' = (None, db')
  /\ (forall id', id' <> id ->
        result (DatabaseStorage.getCategoryById id') db'
        = result (DatabaseStorage.getCategoryById id') db)
  /\ (forall c, In c (categories db') <-> In c (categories db) /\ Category.id c <> id)
  /\ same_but_categories db db'
  /\ ((forall c, In c (categories db) -> Category.id c <> id) -> db' = db)
  /\ after (DatabaseStorage.deleteCategory id) db' = db'.
Proof.
  intros db'.
  assert (Hcat : categories db'
                 = Sql.delete (fun c => Category.id c =? id) (categories db))
    by reflexivity.
  split; [|split; [|split; [|split; [|split]]]].
  - unfold DatabaseStorage.getCategoryById, bind, select_where.
    rewrite Hcat, where_delete_same. reflexivity.
  - intros id' Hid'.
    unfold DatabaseStorage.getCategoryById, result, bind, select_where. cbn [fst].
    rewrite Hcat, where_delete.
    rewrite delete_untouched; [reflexivity|]. intros c Hc.
    unfold Sql.where_ in Hc. apply filter_In in Hc. destruct Hc as [_ Hc].
    apply Z.eqb_eq in Hc. apply Z.eqb_neq. congruence.
  - intros c. rewrite Hcat, delete_In, Z.eqb_neq. reflexivity.
  - unfold same_but_categories. simpl. tauto.
  - intros Habs. unfold db', after, DatabaseStorage.deleteCategory, delete_categories.
    cbn [snd]. rewrite delete_untouched; [apply with_categories_same|].
    intros c Hc. apply Z.eqb_neq. now apply Habs.
  - unfold db', after, DatabaseStorage.deleteCategory, delete_categories.
    cbn [snd categories with_categories]. now rewrite delete_delete.
Qed.

Lemma deleteCategory_then_lookup_witness :
  categories (after (DatabaseStorage.deleteCategory 1) shop) = [books]
  /\ map Product.categoryId
       (products (after (DatabaseStorage.deleteCategory 1) shop))
     = [Some 1; Some 1; Some 2; Some 1; None]
  /\ after (DatabaseStorage.deleteCategory 8) shop = shop.
Proof.
  split; [reflexivity|]. split; [reflexivity|].
  apply (proj1 (proj2 (proj2 (proj2 (proj2 (deleteCategory_then_lookup 8 shop)))))).
  each_row.
Defined.



(** ** Categories in order *)

Section OrderByAsc.
Context {A : Type} (le : A -> A -> bool).
Hypothesis le_total : forall a b, le a b = true \/ le b a = true.
Implicit Types (r : A) (rows : list A).

Lemma insert_asc_Permutation r rows :
  Permutation (r :: rows) (Sql.insert_asc le r rows).
Proof.
  induction rows as [|s rows IH]; simpl; [apply Permutation_refl|].
  destruct (le r s); [apply Permutation_refl|].
  apply perm_trans with (s :: r :: rows); [apply perm_swap|].
  now apply perm_skip.
Qed.

Lemma orderBy_asc_Permutation rows :
  Permutation rows (Sql.orderBy_asc le rows).
Proof.
  induction rows as [|r rows IH]; simpl; [apply perm_nil|].
  apply perm_trans with (r :: Sql.orderBy_asc le rows).
  - now apply perm_skip.
  - apply insert_asc_Permutation.
Qed.

Lemma insert_asc_HdRel s r rows :
  le s r = true ->
  HdRel (fun a b => le a b = true) s rows ->
  HdRel (fun a b => le a b = true) s (Sql.insert_asc le r rows).
Proof.
  intros Hsr Hhd. destruct rows as [|x rows]; simpl.
  - now constructor.
  - destruct (le r x); constructor; [exact Hsr|].
    now inversion Hhd.
Qed.

Lemma insert_asc_Sorted r rows :
  Sorted (fun a b => le a b = true) rows ->
  Sorted (fun a b => le a b = true) (Sql.insert_asc le r rows).
Proof.
  induction 1 as [|s rows Hs IH Hhd]; simpl.
  - repeat constructor.
  - destruct (le r s) eqn:Hrs.
    + constructor; [now constructor | now constructor].
    + constructor; [exact IH|].
      apply insert_asc_HdRel; [|exact Hhd].
      destruct (le_total s r) as [H|H]; [exact H | congruence].
Qed.

Lemma orderBy_asc_Sorted rows :
  Sorted (fun a b => le a b = true) (Sql.orderBy_asc le rows).
Proof.
  induction rows as [|r rows IH]; simpl; [constructor|].
  now apply insert_asc_Sorted.
Qed.

End OrderByAsc.

(** X19: [getCategories] returns every category of the table once, each
    with a name that the collation does not put after the name of the
    next, whenever the collation compares any two names, and leaves the
    database as it was. *)
Theorem getCategories_sorted (collate_le : string -> string -> bool) (db : Db) :
  (forall a b, collate_le a b = true \/ collate_le b a = true) ->
  let res := result (DatabaseStorage.getCategories collate_le) db in
  Permutation (categories db) res
  /\ Sorted (fun a b => collate_le (Category.name a) (Category.name b) = true) res
  /\ after (DatabaseStorage.getCategories collate_le) db = db.
Proof.
  intros Htotal res. split; [|split].
  - apply orderBy_asc_Permutation.
  - apply (orderBy_asc_Sorted
             (fun a b => collate_le (Category.name a) (Category.name b))).
    intros a b. apply Htotal.
  - reflexivity.
Qed.

Lemma getCategories_sorted_witness :
  result (DatabaseStorage.getCategories String.leb) shop = [books; electronics]
  /\ Sorted (fun a b => String.leb (Category.name a) (Category.name b) = true)
            (result (DatabaseStorage.getCategories String.leb) shop).
Proof.
  split; [reflexivity|].
  apply (getCategories_sorted String.leb shop String.leb_total).
Defined.

(** ** Calls that compose *)

Lemma update_commute {A : Type} (c1 c2 : A -> bool) (f1 f2 : A -> A) (rows : list A) :
  (forall r, c1 (f2 r) = c1 r) -> (forall r, c2 (f1 r) = c2 r) ->
  (forall r, f1 (f2 r) = f2 (f1 r)) ->
  Sql.update c1 f1 (Sql.update c2 f2 rows) = Sql.update c2 f2 (Sql.update c1 f1 rows).
Proof.
  intros H1 H2 Hf. unfold Sql.update. rewrite !map_map. apply map_ext. intros r.
  destruct (c1 r) eqn:E1, (c2 r) eqn:E2;
    rewrite ?H1, ?H2, ?E1, ?E2, ?Hf; reflexivity.
Qed.

Lemma set_stock_minus_twice (q1 q2 : Z) (r : Product.t) :
  set_stock_minus q2 (set_stock_minus q1 r) = set_stock_minus (q1 + q2) r.
Proof.
  unfold set_stock_minus. simpl. f_equal. lia.
Qed.

(** X20: stock decrements add up and do not depend on their order: after
    [updateProductStock id q1] and then [updateProductStock id q2] the
    database is the one a single decrement by [q1 + q2] leaves, and two
    decrements, of one product or of two, give the same database in either
    order. *)
Theorem updateProductStock_composes (id1 id2 q1 q2 : Z) (db : Db) :
  after (DatabaseStorage.updateProductStock id1 q2)
        (after (DatabaseStorage.updateProductStock id1 q1) db)
  = after (DatabaseStorage.updateProductStock id1 (q1 + q2)) db
  /\ after (DatabaseStorage.updateProductStock id2 q2)
           (after (DatabaseStorage.updateProductStock id1 q1) db)
     = after (DatabaseStorage.updateProductStock id1 q1)
             (after (DatabaseStorage.updateProductStock id2 q2) db).
Proof.
  unfold after, DatabaseStorage.updateProductStock, bind, update_products, ret.
  cbn [snd products with_products]. unfold with_products. cbn. split; f_equal.
  - rewrite update_update by reflexivity.
    apply update_ext. intros r _. apply set_stock_minus_twice.
  - apply update_commute; try reflexivity.
    intros r. rewrite !set_stock_minus_twice. f_equal. lia.
Qed.

(** X21: of two [updateOrderStatus] calls for one order the second wins:
    the database is the one the second call alone leaves, whatever the two
    status strings are. *)
Theorem updateOrderStatus_last_wins (id : Z) (s1 s2 : string) (db : Db) :
  after (DatabaseStorage.updateOrderStatus id s2)
        (after (DatabaseStorage.updateOrderStatus id s1) db)
  = after (DatabaseStorage.updateOrderStatus id s2) db.
Proof.
  unfold after, DatabaseStorage.updateOrderStatus, bind, update_orders, ret.
  cbn [snd orders with_orders]. unfold with_orders. cbn. f_equal.
  now rewrite update_update by reflexivity.
Qed.

(** ** Filters of the listings *)

Lemma getProducts_In (ilike : string -> string -> bool) (limit offset : option nat)
    (categoryId : option Z) (search : option string) (db : Db) (p : Product.t) :
  In p (result (DatabaseStorage.getProducts ilike limit offset categoryId search) db) ->
  DatabaseStorage.and_
    (DatabaseStorage.getProducts_conditions ilike categoryId search) p = true.
Proof.
  unfold DatabaseStorage.getProducts, select_all, result. cbn [fst].
  intros Hin. apply limit_offset_In in Hin. apply orderBy_desc_In in Hin.
  unfold Sql.where_ in Hin. now apply filter_In in Hin.
Qed.

(** X22: the filters of [getProducts].  A [categoryId] of 0 and an empty
    [search] string filter nothing, exactly as left out.  With a
    [categoryId] other than 0 every returned product has that category, so
    a product without category is never returned; with a [search] string
    that is not empty the name of every returned product matches the
    pattern [%search%]. *)
Theorem getProducts_filters (ilike : string -> string -> bool)
    (limit offset : option nat) (db : Db) :
  (forall search,
      DatabaseStorage.getProducts ilike limit offset (Some 0) search
      = DatabaseStorage.getProducts ilike limit offset None search)
  /\ (forall categoryId,
        DatabaseStorage.getProducts ilike limit offset categoryId (Some ""%string)
        = DatabaseStorage.getProducts ilike limit offset categoryId None)
  /\ (forall c search, c <> 0 ->
        Forall (fun p => Product.categoryId p = Some c)
               (result (DatabaseStorage.getProducts ilike limit offset
                          (Some c) search) db))
  /\ (forall categoryId s, s <> ""%string ->
        Forall (fun p => ilike (Product.name p) ("%" ++ s ++ "%")%string = true)
               (result (DatabaseStorage.getProducts ilike limit offset
                          categoryId (Some s)) db)).
Proof.
  split; [reflexivity|]. split; [reflexivity|]. split.
  - intros c search Hc. apply Forall_forall. intros p Hp.
    apply getProducts_In in Hp.
    unfold DatabaseStorage.getProducts_conditions, DatabaseStorage.and_,
      JS.when_number, JS.truthy_number in Hp.
    destruct (Z.eqb_spec c 0); [contradiction|]. cbn [negb] in Hp.
    assert (Hcat : eq_nullable (Product.categoryId p) c = true).
    { destruct (JS.when_string search); cbn in Hp;
        repeat (apply andb_prop in Hp; destruct Hp as [? Hp]); tauto. }
    unfold eq_nullable in Hcat.
    destruct (Product.categoryId p) as [c'|]; [|discriminate].
    apply Z.eqb_eq in Hcat. now subst.
  - intros categoryId s Hs. apply Forall_forall. intros p Hp.
    apply getProducts_In in Hp.
    unfold DatabaseStorage.getProducts_conditions, DatabaseStorage.and_,
      JS.when_string, JS.truthy_string in Hp.
    destruct (String.eqb_spec s ""); [contradiction|]. cbn [negb] in Hp.
    destruct (JS.when_number categoryId); cbn in Hp;
      repeat (apply andb_prop in Hp; destruct Hp as [? Hp]); tauto.
Qed.

Lemma getProducts_filters_witness :
  result (DatabaseStorage.getProducts ilike_ascii None None (Some 1) (Some "PH")) shop
  = [phone]
  /\ Forall (fun p => Product.categoryId p = Some 1)
            (result (DatabaseStorage.getProducts ilike_ascii None None (Some 1) None)
                    shop).
Proof.
  split; [reflexivity|].
  apply (proj1 (proj2 (proj2 (getProducts_filters ilike_ascii None None shop)))).
  discriminate.
Defined.

(** X23: [getFeaturedProducts] returns at most [limit] rows (8 by
    default), all of them active and featured rows of the table, no row
    older than a row after it; each of them is also a row of the
    unfiltered [getProducts] listing that is long enough to hold every
    product. *)
Theorem getFeaturedProducts_listing (ilike : string -> string -> bool)
    (limit : option nat) (db : Db) :
  let res := result (DatabaseStorage.getFeaturedProducts limit) db in
  (List.length res <= JS.default limit 8)%nat
  /\ Forall (fun p => Product.isActive p = true /\ Product.isFeatured p = true
                      /\ In p (products db)) res
  /\ newest_first Product.createdAt res
  /\ (forall p, In p res ->
        In p (result (DatabaseStorage.getProducts ilike
                        (Some (List.length (products db))) None None None) db)).
Proof.
  intros res. split; [|split; [|split]].
  - apply firstn_le_length.
  - apply Forall_forall. intros p Hp. now apply getFeaturedProducts_rows in Hp.
  - apply StronglySorted_firstn, orderBy_desc_newest_first.
  - intros p Hp. apply getFeaturedProducts_rows in Hp. destruct Hp as (Ha & _ & Hin).
    rewrite getProducts_unfiltered. unfold Sql.limit_offset. cbn [JS.default skipn].
    rewrite firstn_all2.
    + apply orderBy_desc_In. unfold active_products, Sql.where_.
      apply filter_In. split; [exact Hin | now rewrite Ha].
    + rewrite orderBy_desc_length. unfold active_products, Sql.where_.
      apply filter_length_le.
Qed.

(** * The client pages *)

(** X24: the product grid of the home page shows the first
    [8 * (currentPage + 1)] sorted products, or all of them when there are
    fewer; the "Load More" button is offered exactly when a product is not
    shown yet, a press adds the next eight at most and keeps what was
    shown, and after [totalProducts / 8] presses the button is gone. *)
Theorem homePage_paging {A : Type} (sortedProducts : list A) (currentPage : nat) :
  List.length (HomePage.displayProducts sortedProducts currentPage)
  = Nat.min (8 * (currentPage + 1)) (List.length sortedProducts)
  /\ (HomePage.hasMore sortedProducts currentPage = false
      <-> HomePage.displayProducts sortedProducts currentPage = sortedProducts)
  /\ HomePage.displayProducts sortedProducts (HomePage.handleLoadMore currentPage)
     = HomePage.displayProducts sortedProducts currentPage
       ++ firstn 8 (skipn (8 * (currentPage + 1)) sortedProducts)
  /\ HomePage.hasMore sortedProducts
       (Nat.iter (HomePage.totalProducts sortedProducts / 8)
                 HomePage.handleLoadMore 0%nat) = false.
Proof.
  unfold HomePage.displayProducts, HomePage.hasMore, HomePage.displayedCount,
    HomePage.handleLoadMore, HomePage.totalProducts, HomePage.ITEMS_PER_PAGE.
  split; [|split; [|split]].
  - rewrite length_firstn. f_equal. lia.
  - rewrite Nat.ltb_ge. split.
    + intros Hle. now apply firstn_all2.
    + intros Hall. apply (f_equal (@List.length A)) in Hall.
      rewrite length_firstn in Hall. lia.
  - replace (8 * (currentPage + 1))%nat with ((currentPage + 1) * 8)%nat by lia.
    rewrite firstn_then_firstn. f_equal. lia.
  - apply Nat.ltb_ge.
    assert (Hiter : forall n, Nat.iter n (fun p => (p + 1)%nat) 0%nat = n).
    { induction n as [|n IH]; simpl; [reflexivity | rewrite IH; lia]. }
    rewrite Hiter.
    pose proof (Nat.div_mod_eq (List.length sortedProducts) 8) as Hdm.
    pose proof (Nat.mod_upper_bound (List.length sortedProducts) 8) as Hub.
    lia.
Qed.

Lemma quantity_click_bounds (stock : Z) (button : ProductPage.Click) (q : Z) :
  1 <= q <= stock -> 1 <= ProductPage.click stock button q <= stock.
Proof.
  intros Hq. destruct button; cbn [ProductPage.click].
  - destruct (Z.leb_spec q 1); lia.
  - destruct (Z.leb_spec stock q); lia.
Qed.

(** X25: on the product page, for a product in stock, the quantity of the
    selector starts at 1 and stays between 1 and the stock after any
    sequence of clicks on its two buttons, so the page never adds a
    quantity of 0 or more than the stock to the cart; a click that is not
    on a disabled button changes the quantity by exactly 1. *)
Theorem productPage_quantity (stock : Z) (buttons : list ProductPage.Click) :
  1 <= stock ->
  1 <= ProductPage.clicks stock buttons ProductPage.initialQuantity <= stock
  /\ (forall q, 1 < q <= stock ->
        ProductPage.click stock ProductPage.Minus q = q - 1)
  /\ (forall q, 1 <= q < stock ->
        ProductPage.click stock ProductPage.Plus q = q + 1).
Proof.
  intros Hstock. split; [|split].
  - unfold ProductPage.clicks.
    assert (Hstart : 1 <= ProductPage.initialQuantity <= stock)
      by (unfold ProductPage.initialQuantity; lia).
    revert Hstart. generalize ProductPage.initialQuantity.
    induction buttons as [|b buttons IH]; intros q Hq; cbn [fold_left]; [exact Hq|].
    apply IH. now apply quantity_click_bounds.
  - intros q Hq. cbn [ProductPage.click]. destruct (Z.leb_spec q 1); lia.
  - intros q Hq. cbn [ProductPage.click]. destruct (Z.leb_spec stock q); lia.
Qed.

Lemma productPage_quantity_witness :
  1 <= ProductPage.clicks 3
         [ProductPage.Plus; ProductPage.Plus; ProductPage.Plus; ProductPage.Plus;
          ProductPage.Minus] ProductPage.initialQuantity <= 3.
Proof.
  apply (productPage_quantity 3
           [ProductPage.Plus; ProductPage.Plus; ProductPage.Plus; ProductPage.Plus;
            ProductPage.Minus]).
  lia.
Defined.
